(** * jwst_prop_status: program information and visit status normalisation

    A shallow embedding of [jwst_prop_status.py].  The three functions of the
    script that carry logic are embedded:

    - [get_prop_info]: positional extraction of the program fields from the
      parsed HTML page;
    - [get_visit_status]: normalisation of the [xmltodict] tree of the visit
      status report into one flat row per visit;
    - [filter_df_by_status]: the status filter and the table height.

    The HTTP fetch and the two parsers ([bs4], [xmltodict]) are outside the
    script; the embedded functions start from the parsed documents.  Python
    exceptions are values of [exn] carried by the [result] monad.  Strings are
    [string]s of 8-bit characters; whitespace is the ASCII whitespace of
    [str.isspace]. *)

From stdpp Require Import gmap strings list fin_maps.
From Stdlib Require Import ZArith Ascii.

Set Warnings "-register-all,-clear-no-such-hyp".
Set Default Proof Using "Type".

(** ** Exceptions *)

Inductive exn : Type :=
  | KeyError
  | TypeError
  | AttributeError
  | IndexError
  | ValueError.

Inductive result (A : Type) : Type :=
  | Ok (a : A)
  | Raise (e : exn).

Arguments Ok {A} a.
Arguments Raise {A} e.

#[global] Instance result_ret : MRet result := @Ok.

#[global] Instance result_bind : MBind result := λ A B f m,
  match m with
  | Ok a => f a
  | Raise e => Raise e
  end.

#[global] Instance result_fmap : FMap result := λ A B f m,
  match m with
  | Ok a => Ok (f a)
  | Raise e => Raise e
  end.

(** [seq[i]] for a non-negative literal index. *)
Definition index {A} (l : list A) (i : nat) : result A :=
  match l !! i with
  | Some x => Ok x
  | None => Raise IndexError
  end.

(** [seq[-1]]. *)
Definition index_last {A} (l : list A) : result A :=
  match last l with
  | Some x => Ok x
  | None => Raise IndexError
  end.

(** ** Python string methods *)

Module Str.

(** [str.isspace] on one 8-bit character: tab, line feed, vertical tab, form
    feed, carriage return, the four separators 28..31 and the space. *)
Definition is_space (a : ascii) : bool :=
  let n := nat_of_ascii a in
  ((9 <=? n) && (n <=? 13)) || ((28 <=? n) && (n <=? 32)).

(** [s.split(sep)] for a one-character separator: never the empty list. *)
Fixpoint split_on (sep : ascii) (s : string) : list string :=
  match s with
  | EmptyString => [EmptyString]
  | String a s' =>
      if Ascii.eqb a sep then EmptyString :: split_on sep s'
      else match split_on sep s' with
           | h :: t => String a h :: t
           | [] => [String a EmptyString]
           end
  end.

(** [s.split()]: the maximal runs of non-whitespace characters. *)
Fixpoint split (s : string) : list string :=
  match s with
  | EmptyString => []
  | String a s' =>
      if is_space a then split s'
      else match s' with
           | EmptyString => [String a EmptyString]
           | String b _ =>
               if is_space b then String a EmptyString :: split s'
               else match split s' with
                    | h :: t => String a h :: t
                    | [] => [String a EmptyString]
                    end
           end
  end.

Fixpoint lstrip (s : string) : string :=
  match s with
  | EmptyString => EmptyString
  | String a s' => if is_space a then lstrip s' else s
  end.

Fixpoint rstrip (s : string) : string :=
  match s with
  | EmptyString => EmptyString
  | String a s' =>
      match rstrip s' with
      | EmptyString => if is_space a then EmptyString else String a EmptyString
      | r => String a r
      end
  end.

(** [s.strip()]. *)
Definition strip (s : string) : string := rstrip (lstrip s).

(** [sep.join(l)]. *)
Fixpoint join (sep : string) (l : list string) : string :=
  match l with
  | [] => EmptyString
  | [x] => x
  | x :: rest => x +:+ sep +:+ join sep rest
  end.

(** [sub in s] on strings. *)
Fixpoint is_prefix (p s : string) : bool :=
  match p, s with
  | EmptyString, _ => true
  | String a p', String b s' => Ascii.eqb a b && is_prefix p' s'
  | String _ _, EmptyString => false
  end.

Fixpoint contains (sub s : string) : bool :=
  is_prefix sub s ||
  match s with
  | EmptyString => false
  | String _ s' => contains sub s'
  end.

(** The character [c] occurs in [s]. *)
Fixpoint mem (c : ascii) (s : string) : bool :=
  match s with
  | EmptyString => false
  | String a s' => Ascii.eqb a c || mem c s'
  end.

End Str.

(** ** The tree returned by [xmltodict.parse]

    An element without attributes and children is its text ([XStr]) or [None]
    when empty; an element with attributes or children is a dict; a repeated
    element is the list of its occurrences. *)

Inductive xval : Type :=
  | XNone
  | XStr (s : string)
  | XList (l : list xval)
  | XDict (d : gmap string xval).

(** [v[k]] with a string key [k]. *)
Definition getitem (v : xval) (k : string) : result xval :=
  match v with
  | XDict d =>
      match d !! k with
      | Some x => Ok x
      | None => Raise KeyError
      end
  | _ => Raise TypeError
  end.

Definition eq_str (k : string) (v : xval) : bool :=
  match v with
  | XStr s => bool_decide (s = k)
  | _ => false
  end.

(** [k in v] with a string [k]. *)
Definition contains (k : string) (v : xval) : result bool :=
  match v with
  | XDict d => Ok (bool_decide (is_Some (d !! k)))
  | XStr s => Ok (Str.contains k s)
  | XList l => Ok (existsb (eq_str k) l)
  | XNone => Raise TypeError
  end.

(** [isinstance(v, list)]. *)
Definition is_list (v : xval) : bool :=
  match v with
  | XList _ => true
  | _ => false
  end.

(** [v.split('(')]: only strings have the method. *)
Definition split_paren (v : xval) : result (list string) :=
  match v with
  | XStr s => Ok (Str.split_on "("%char s)
  | _ => Raise AttributeError
  end.

(** One row of the table: the ten keys of [visit_dict]. *)
Record visit_dict : Type := VisitDict {
  observation : xval;
  visit : xval;
  status : xval;
  target : xval;
  configuration : xval;
  hours : xval;
  start_ut : xval;
  end_ut : xval;
  plan_window : xval;
  repeat : xval
}.

Definition placeholder : string :=
  "Ready for long range planning, plan window not yet assigned".

Section VisitStatus.

(** [repr] of a list or a dict, which an f-string falls back to; the sentences
    only ever see it through [format]. *)
Variable py_repr : xval → string.

(** [f"{v}"]. *)
Definition format (v : xval) : string :=
  match v with
  | XStr s => s
  | XNone => "None"
  | _ => py_repr v
  end.

(** Lines 70-73: the loop over a list of windows. *)
Fixpoint plan_windows (l : list xval) (pws : string) : result string :=
  match l with
  | [] => Ok pws
  | i :: rest =>
      parts ← split_paren i;
      head ← index parts 0;
      plan_windows rest (pws +:+ (head +:+ " "))
  end.

(** Lines 68-83. *)
Definition resolve_plan_window (vd : xval) : result xval :=
  has_pw ← contains "planWindow" vd;
  if has_pw : bool then
    pw ← getitem vd "planWindow";
    match pw with
    | XList l => pws ← plan_windows l ""; Ok (XStr pws)
    | _ =>
        parts ← split_paren pw;
        head ← index parts 0;
        Ok (XStr head)
    end
  else
    has_lr ← contains "longRangePlanStatus" vd;
    if has_lr : bool then Ok (XStr placeholder)
    else Ok XNone.

(** Lines 85-104. *)
Definition resolve_repeat (vd : xval) : result xval :=
  has_rb ← contains "repeatedBy" vd;
  if has_rb : bool then
    rb ← getitem vd "repeatedBy";
    pid ← getitem rb "problemID";
    obs ← getitem rb "observation";
    vis ← getitem rb "visit";
    Ok (XStr ("Rescheduled by WOPR " +:+ format pid +:+ " as observation "
              +:+ format obs +:+ " visit " +:+ format vis
              +:+ " in this program"))
  else
    has_ro ← contains "repeatOf" vd;
    if has_ro : bool then
      ro ← getitem vd "repeatOf";
      obs ← getitem ro "observation";
      vis ← getitem ro "visit";
      pid ← getitem ro "problemID";
      Ok (XStr ("Repeat of observation " +:+ format obs +:+ " visit(s) "
                +:+ format vis +:+ " in this program by WOPR " +:+ format pid))
    else
      has_ar ← contains "approvedRepeat" vd;
      if has_ar : bool then
        ar ← getitem vd "approvedRepeat";
        pid ← getitem ar "problemID";
        Ok (XStr ("Repeat visit implementation pending by WOPR "
                  +:+ format pid))
      else Ok XNone.

(** Lines 50-104: the body of the loop, one raw entry to one row. *)
Definition make_visit_dict (vd : xval) : result visit_dict :=
  o ← getitem vd "@observation";
  v ← getitem vd "@visit";
  s ← getitem vd "status";
  t ← getitem vd "target";
  c ← getitem vd "configuration";
  h ← getitem vd "hours";
  has_st ← contains "startTime" vd;
  st ← (if has_st : bool then getitem vd "startTime" else Ok XNone);
  has_et ← contains "endTime" vd;
  et ← (if has_et : bool then getitem vd "endTime" else Ok XNone);
  pw ← resolve_plan_window vd;
  rp ← resolve_repeat vd;
  Ok (VisitDict o v s t c h st et pw rp).

(** Lines 48-106: [visits] grows by one row per entry. *)
Fixpoint visit_loop (visit_data_list : list xval) (visits : list visit_dict)
  : result (list visit_dict) :=
  match visit_data_list with
  | [] => Ok visits
  | vd :: rest =>
      visit_dict ← make_visit_dict vd;
      visit_loop rest (visits ++ [visit_dict])
  end.

(** Lines 44-47: a single visit parses as a bare entry and is wrapped. *)
Definition visit_data_list (visit_data : xval) : result (list xval) :=
  report ← getitem visit_data "visitStatusReport";
  v ← getitem report "visit";
  match v with
  | XList l => Ok l
  | _ => Ok [v]
  end.

(** [get_visit_status] from the parsed report on; the frame is the list of
    its rows. *)
Definition get_visit_status (visit_data : xval) : result (list visit_dict) :=
  vds ← visit_data_list visit_data;
  visit_loop vds [].

End VisitStatus.

(** ** The tree built by [bs4.BeautifulSoup]

    A node is a text ([NavigableString]) or a tag with its attributes and its
    [contents]; the document itself is a tag. *)

Inductive node : Type :=
  | Text (s : string)
  | Tag (name : string) (attrs : list (string * string)) (contents : list node).

(** [Tag.descendants]: every node below [n], in document order. *)
Fixpoint descendants (n : node) : list node :=
  match n with
  | Text _ => []
  | Tag _ _ cs => flat_map (λ c, c :: descendants c) cs
  end.

Definition is_tag (n : node) : bool :=
  match n with
  | Tag _ _ _ => true
  | Text _ => false
  end.

Definition is_named (name : string) (n : node) : bool :=
  match n with
  | Tag nm _ _ => bool_decide (nm = name)
  | Text _ => false
  end.

(** [n.find_all(name)]. *)
Definition find_all (name : string) (n : node) : list node :=
  List.filter (is_named name) (descendants n).

(** [n.contents]: a text node has no such attribute. *)
Definition contents_of (n : node) : result (list node) :=
  match n with
  | Tag _ _ cs => Ok cs
  | Text _ => Raise AttributeError
  end.

(** [ps[i].contents[j]]. *)
Definition content (ps : list node) (i j : nat) : result node :=
  p ← index ps i;
  cs ← contents_of p;
  index cs j.

(** [ps[i].contents[-1]]. *)
Definition content_last (ps : list node) (i : nat) : result node :=
  p ← index ps i;
  cs ← contents_of p;
  index_last cs.

(** [try: body except IndexError: handler]. *)
Definition except_IndexError {A} (body handler : result A) : result A :=
  match body with
  | Raise IndexError => handler
  | r => r
  end.

Section PropInfo.

(** The builtins [int] and [float] on a string: [None] is [ValueError]. *)
Variable float : Type.
Variable py_int : string → option Z.
Variable py_float : string → option float.

(** The values stored in [prop_info]. *)
Inductive pval : Type :=
  | PStr (s : string)
  | PInt (z : Z)
  | PFloat (f : float)
  | PNode (n : node)
  | PResultSet (l : list node).

(** [n.strip()].  On a text node it is [str.strip].  On a tag, [bs4] resolves
    the unknown attribute [strip] as [find("strip")]: without such an element
    it is [None], whose call raises [TypeError]; with one, calling that tag is
    its [find_all()], the result set of all tags below it. *)
Definition strip_call (n : node) : result pval :=
  match n with
  | Text s => Ok (PStr (Str.strip s))
  | Tag _ _ _ =>
      match find_all "strip" n with
      | [] => Raise TypeError
      | t :: _ => Ok (PResultSet (List.filter is_tag (descendants t)))
      end
  end.

(** [v.split()]. *)
Definition split_call (v : pval) : result (list string) :=
  match v with
  | PStr s => Ok (Str.split s)
  | _ => Raise AttributeError
  end.

(** [int(v)]. *)
Definition int_call (v : pval) : result pval :=
  match v with
  | PStr s =>
      match py_int s with
      | Some z => Ok (PInt z)
      | None => Raise ValueError
      end
  | _ => Raise TypeError
  end.

(** [float(s)]. *)
Definition float_call (s : string) : result pval :=
  match py_float s with
  | Some f => Ok (PFloat f)
  | None => Raise ValueError
  end.

(** [x.strip().split()[0]] on a content node [x]. *)
Definition first_token (n : node) : result string :=
  v ← strip_call n;
  toks ← split_call v;
  index toks 0.

(** [get_prop_info] from the parsed page on. *)
Definition get_prop_info (html_data : node) : result (gmap string pval) :=
  let ps := find_all "p" html_data in
  let prop_info : gmap string pval := ∅ in
  match ps with
  | [] => Ok prop_info
  | _ :: _ =>
      n ← content ps 0 1;
      pi ← strip_call n;
      let prop_info := <["pi" := pi]> prop_info in
      n ← content ps 0 5;
      pi_inst ← strip_call n;
      let prop_info := <["pi_inst" := pi_inst]> prop_info in
      n ← content ps 1 1;
      title ← strip_call n;
      let prop_info := <["title" := title]> prop_info in
      n ← content ps 1 5;
      v ← strip_call n;
      cycle ← int_call v;
      let prop_info := <["cycle" := cycle]> prop_info in
      n ← content ps 1 9;
      tok ← first_token n;
      allocation ← float_call tok;
      let prop_info := <["allocation" := allocation]> prop_info in
      excl_time ← except_IndexError
        (n ← content_last ps 1;
         tok ← first_token n;
         int_call (PStr tok))
        (Ok (PInt 0));
      let prop_info := <["excl_time" := excl_time]> prop_info in
      h ← index (find_all "h1" html_data) 0;
      hc ← contents_of h;
      n ← index hc 1;
      nc ← contents_of n;
      ptype ← index nc 0;
      let prop_info := <["ptype" := PNode ptype]> prop_info in
      let links := find_all "a" html_data in
      apt ← index links 9;
      let prop_info := <["apt" := PNode apt]> prop_info in
      pdf ← index links 10;
      let prop_info := <["pdf" := PNode pdf]> prop_info in
      Ok prop_info
  end.

End PropInfo.

Arguments PStr {float} s.
Arguments PInt {float} z.
Arguments PFloat {float} f.
Arguments PNode {float} n.
Arguments PResultSet {float} l.

(** ** The status filter *)

(** [Series.notnull] on one cell. *)
Definition notnull (v : xval) : bool :=
  match v with
  | XNone => false
  | _ => true
  end.

(** [filter_df_by_status]: the frame is the list of its rows, each with its
    [status] cell. *)
Definition filter_df_by_status (selector : string) (df : list visit_dict)
  : list visit_dict * Z :=
  let df := List.filter (λ r, notnull (status r)) df in
  let filtered_df :=
    if bool_decide (selector = "All") then df
    else List.filter (λ r, eq_str selector (status r)) df in
  let height := (Z.of_nat (length filtered_df) * 35 + 3)%Z in
  (filtered_df, height).

(** ** The link formatter *)

(** The attributes of a tag as [bs4] keeps them, a dict in source order. *)
Fixpoint assoc (key : string) (attrs : list (string * string))
  : option string :=
  match attrs with
  | [] => None
  | (k, v) :: rest => if bool_decide (k = key) then Some v else assoc key rest
  end.

(** [n[key]]: a tag indexes its attributes; a text is a [str], which no
    string indexes. *)
Definition node_getitem (n : node) (key : string) : result string :=
  match n with
  | Tag _ attrs _ =>
      match assoc key attrs with
      | Some v => Ok v
      | None => Raise KeyError
      end
  | Text _ => Raise TypeError
  end.

Section MdLink.

(** [str] of a tag, its markup, which the f-string falls back to when the
    first child of the link is itself a tag. *)
Variable py_str : node → string.

(** [f"{n}"] on a node. *)
Definition node_format (n : node) : string :=
  match n with
  | Text s => s
  | Tag _ _ _ => py_str n
  end.

(** Lines 111-114. *)
Definition make_md_link (link : node) : result string :=
  href ← node_getitem link "href";
  let url := "https://www.stsci.edu/" +:+ href in
  cs ← contents_of link;
  name ← index cs 0;
  Ok ("[" +:+ node_format name +:+ "](" +:+ url +:+ ")").

End MdLink.

(** ** The select box (lines 147-148 and 165) *)



(** Line 147: [status_df[status_df.status.notnull()]]. *)
Definition status_df (df : list visit_dict) : list visit_dict :=
  List.filter (λ r, notnull (status r)) df.



(** ** The form (lines 127-128 and 137-142) *)

(** Truth value of [st.session_state.pid]: [None] and the empty text are
    false. *)
Definition truthy (pid : option string) : bool :=
  match pid with
  | Some (String _ _) => true
  | _ => false
  end.

Section Form.

Variable float : Type.
Variable py_int : string → option Z.
Variable py_float : string → option float.

(** One submission of the form: the session identifier before, the text
    entered and the page fetched for it; the session identifier after, and
    whether [Program not found.] is written. *)
Definition on_submit (session_pid : option string) (pid : string)
    (html_data : node) : result (option string * bool) :=
  prop_info ← get_prop_info float py_int py_float html_data;
  let session_pid :=
    if bool_decide (size prop_info = 0) then session_pid else Some pid in
  Ok (session_pid, negb (truthy session_pid)).

End Form.

(** ** Specification-side vocabulary *)

(** The text of [s] before its first opening parenthesis: a window written
    [w (annotation)] loses the annotation. *)
Fixpoint before_paren (s : string) : string :=
  match s with
  | EmptyString => EmptyString
  | String a s' =>
      if Ascii.eqb a "("%char then EmptyString else String a (before_paren s')
  end.

(** Each stripped window followed by one space, in order. *)
Fixpoint spaced (ss : list string) : string :=
  match ss with
  | [] => EmptyString
  | s :: rest => before_paren s +:+ " " +:+ spaced rest
  end.

(** [Select P l k]: [k] keeps, in the order of [l], exactly the elements of
    [l] that satisfy [P]. *)
Inductive Select {A} (P : A → Prop) : list A → list A → Prop :=
  | Select_nil : Select P [] []
  | Select_keep x l k : P x → Select P l k → Select P (x :: l) (x :: k)
  | Select_drop x l k : ¬ P x → Select P l k → Select P (x :: l) k.

(** The three sentences of the repeat column. *)
Definition rescheduled_by (py_repr : xval → string) (pid obs vis : xval)
  : string :=
  "Rescheduled by WOPR " +:+ format py_repr pid +:+ " as observation "
  +:+ format py_repr obs +:+ " visit " +:+ format py_repr vis
  +:+ " in this program".

Definition repeat_of (py_repr : xval → string) (obs vis pid : xval)
  : string :=
  "Repeat of observation " +:+ format py_repr obs +:+ " visit(s) "
  +:+ format py_repr vis +:+ " in this program by WOPR "
  +:+ format py_repr pid.

Definition repeat_pending (py_repr : xval → string) (pid : xval) : string :=
  "Repeat visit implementation pending by WOPR " +:+ format py_repr pid.

(** Plan window resolution of a raw entry [d], by priority: the explicit
    window or windows, else the long range placeholder, else null. *)
Inductive plan_window_resolution (d : gmap string xval) : xval → Prop :=
  | resolve_window s :
      d !! "planWindow" = Some (XStr s) →
      plan_window_resolution d (XStr (before_paren s))
  | resolve_windows ss :
      d !! "planWindow" = Some (XList (XStr <$> ss)) →
      plan_window_resolution d (XStr (spaced ss))
  | resolve_long_range :
      d !! "planWindow" = None →
      is_Some (d !! "longRangePlanStatus") →
      plan_window_resolution d (XStr placeholder)
  | resolve_no_window :
      d !! "planWindow" = None →
      d !! "longRangePlanStatus" = None →
      plan_window_resolution d XNone.

(** Repeat resolution of a raw entry [d], by priority: rescheduled by, else
    repeat of, else approved repeat pending, else null. *)
Inductive repeat_resolution (py_repr : xval → string) (d : gmap string xval)
  : xval → Prop :=
  | resolve_repeated_by rb pid obs vis :
      d !! "repeatedBy" = Some (XDict rb) →
      rb !! "problemID" = Some pid →
      rb !! "observation" = Some obs →
      rb !! "visit" = Some vis →
      repeat_resolution py_repr d (XStr (rescheduled_by py_repr pid obs vis))
  | resolve_repeat_of ro obs vis pid :
      d !! "repeatedBy" = None →
      d !! "repeatOf" = Some (XDict ro) →
      ro !! "observation" = Some obs →
      ro !! "visit" = Some vis →
      ro !! "problemID" = Some pid →
      repeat_resolution py_repr d (XStr (repeat_of py_repr obs vis pid))
  | resolve_approved_repeat ar pid :
      d !! "repeatedBy" = None →
      d !! "repeatOf" = None →
      d !! "approvedRepeat" = Some (XDict ar) →
      ar !! "problemID" = Some pid →
      repeat_resolution py_repr d (XStr (repeat_pending py_repr pid))
  | resolve_no_repeat :
      d !! "repeatedBy" = None →
      d !! "repeatOf" = None →
      d !! "approvedRepeat" = None →
      repeat_resolution py_repr d XNone.



Definition set_plan_window (x : xval) (r : visit_dict) : visit_dict :=
  VisitDict (observation r) (visit r) (status r) (target r) (configuration r)
            (hours r) (start_ut r) (end_ut r) x (repeat r).

(** The parsed report [root] whose [visitStatusReport] element is [report]
    with [v] as its [visit] field. *)
Definition with_visits (root report : gmap string xval) (v : xval) : xval :=
  XDict (<["visitStatusReport" := XDict (<["visit" := v]> report)]> root).

(** ** Sample documents *)

(** The sample entries carry texts only, where [repr] is never called. *)
Definition flat_repr : xval → string := λ _, "".

Definition entry_base : gmap string xval :=
  list_to_map
    [("@observation", XStr "1"); ("@visit", XStr "1");
     ("status", XStr "Scheduled"); ("target", XStr "T1");
     ("configuration", XStr "NIRCam"); ("hours", XStr "2.0")].

Definition row_base : visit_dict :=
  VisitDict (XStr "1") (XStr "1") (XStr "Scheduled") (XStr "T1")
            (XStr "NIRCam") (XStr "2.0") XNone XNone XNone XNone.

Definition two_windows : list string :=
  ["2023.060 - 2023.064 (Mar 1 - Mar 5)";
   "2023.092 - 2023.099 (Apr 2 - Apr 9)"].

Definition entry_two_windows : gmap string xval :=
  <["planWindow" := XList (XStr <$> two_windows)]> entry_base.

Definition entry_repeated : gmap string xval :=
  <["repeatedBy" :=
      XDict (list_to_map [("problemID", XStr "12345");
                          ("observation", XStr "7");
                          ("visit", XStr "1")])]> entry_base.

(** A report with nothing but its visits. *)
Definition report_of (v : xval) : xval := with_visits ∅ ∅ v.

(** A row of the sample table with the given status cell. *)
Definition row_with_status (s : xval) : visit_dict :=
  VisitDict (XStr "1") (XStr "1") s (XStr "T1") (XStr "NIRCam") (XStr "2.0")
            XNone XNone XNone XNone.

Definition sample_table : list visit_dict :=
  row_with_status <$> [XStr "Scheduled"; XNone; XStr "Executed";
                       XStr "Scheduled"; XStr "scheduled"; XStr "Withdrawn"].

(** [ProgramInfo] as the mapping that [get_prop_info] fills, key after key. *)
Definition program_info {float} (pi pi_inst title : pval float) (cycle : Z)
    (allocation : float) (excl_time : Z) (ptype apt pdf : node)
  : gmap string (pval float) :=
  <["pdf" := PNode pdf]> (<["apt" := PNode apt]> (<["ptype" := PNode ptype]>
  (<["excl_time" := PInt excl_time]> (<["allocation" := PFloat allocation]>
  (<["cycle" := PInt cycle]> (<["title" := title]>
  (<["pi_inst" := pi_inst]> (<["pi" := pi]> ∅)))))))).

Definition program_info_keys : gset string :=
  {[ "pi"; "pi_inst"; "title"; "cycle"; "allocation"; "excl_time"; "ptype";
     "apt"; "pdf" ]}.

(** Decimal readers for the sample pages: the part of [int] and [float] that
    the page template exercises.  A decimal number is kept as its digits and
    the count of those after the point. *)
Definition digit (a : ascii) : option Z :=
  let n := nat_of_ascii a in
  if (48 <=? n) && (n <=? 57) then Some (Z.of_nat (n - 48)) else None.

Fixpoint digits (s : string) (acc : Z) : option Z :=
  match s with
  | EmptyString => Some acc
  | String a s' =>
      match digit a with
      | Some d => digits s' (10 * acc + d)%Z
      | None => None
      end
  end.

Definition dec_int (s : string) : option Z :=
  match s with
  | EmptyString => None
  | String "-" (String _ _ as s') => Z.opp <$> digits s' 0
  | String "+" (String _ _ as s') => digits s' 0
  | _ => digits s 0
  end.

Definition dec_float (s : string) : option (Z * nat) :=
  match Str.split_on "."%char s with
  | [i] => (λ z, (z, 0)) <$> dec_int i
  | [i; f] => (λ z, (z, String.length f)) <$> dec_int (i +:+ f)
  | _ => None
  end.

(** Sample pages after the upstream template: a heading with the program
    type, a paragraph for the investigator, a paragraph for the program, and
    the links. *)
Definition br : node := Tag "br" [] [].

Definition newline : node := Text (String "010"%char EmptyString).

Definition label (s : string) : node := Tag "b" [] [Text s].

Definition link (href text : string) : node :=
  Tag "a" [("href", href)] [Text text].

Definition nav : node :=
  Tag "div" []
    ((λ i, link "index.html" i) <$> ["a"; "b"; "c"; "d"; "e"; "f"; "g"; "h"]).

Definition heading : node :=
  Tag "h1" [] [Text "JWST "; link "go.html" "GO"; Text " 1234"].

Definition investigator : node :=
  Tag "p" []
    [label "Principal Investigator:"; Text " Jane Doe"; br; newline;
     label "PI Institution:"; Text " Space Telescope Science Institute"].

Definition program_head : list node :=
  [label "Title:"; Text " A survey"; br; newline;
   label "Cycle:"; Text " 1"; br; newline;
   label "Allocation:"; Text " 12.5 hours"].

Definition page (program : list node) : node :=
  Tag "[document]" []
    [Tag "html" []
       [Tag "body" []
          [nav; heading; investigator; Tag "p" [] program;
           link "apt/1234.aptx" "APT"; link "pdf/1234.pdf" "PDF"]]].

(** With an exclusive access period, without one, and cut short. *)
Definition page_exclusive : node :=
  page (program_head ++ [br; newline;
                        label "Exclusive Access Period:"; Text " 12 months"]).

Definition page_public : node :=
  page (program_head ++ [br; newline]).

Definition page_ten_children : node := page program_head.


Definition page_not_found : node :=
  Tag "[document]" [] [Tag "html" [] [Tag "body" [] [Text "No such program"]]].

(** What the sample pages hold, up to the exclusive period. *)
Definition sample_info (excl_time : Z) : gmap string (pval (Z * nat)) :=
  program_info (PStr "Jane Doe") (PStr "Space Telescope Science Institute")
    (PStr "A survey") 1 (125%Z, 1) excl_time (Text "GO")
    (link "apt/1234.aptx" "APT") (link "pdf/1234.pdf" "PDF").

(** The keys every entry must carry, and all the keys an entry is read at. *)
Definition required_keys : list string :=
  ["@observation"; "@visit"; "status"; "target"; "configuration"; "hours"].

Definition entry_keys : list string :=
  required_keys ++ ["startTime"; "endTime"; "planWindow";
                    "longRangePlanStatus"; "repeatedBy"; "repeatOf";
                    "approvedRepeat"].

(** A sample entry with every optional field, and a sample report. *)
Definition entry_full : gmap string xval :=
  <["startTime" := XStr "Mar 1, 2023 10:00:00"]>
  (<["endTime" := XStr "Mar 1, 2023 12:00:00"]>
  (<["planWindow" := XStr "Mar 1, 2023 - Mar 5, 2023 (2023.060 - 2023.064)"]>
  (<["longRangePlanStatus" := XStr "ready"]>
  (<["repeatOf" :=
       XDict (list_to_map [("problemID", XStr "777");
                           ("observation", XStr "3");
                           ("visit", XStr "2")])]> entry_repeated)))).

Definition row_full : visit_dict :=
  VisitDict (XStr "1") (XStr "1") (XStr "Scheduled") (XStr "T1")
    (XStr "NIRCam") (XStr "2.0") (XStr "Mar 1, 2023 10:00:00")
    (XStr "Mar 1, 2023 12:00:00") (XStr "Mar 1, 2023 - Mar 5, 2023 ")
    (XStr "Rescheduled by WOPR 12345 as observation 7 visit 1 in this program").

(** A plan window the normaliser can read: a text, or a list of texts. *)
Definition readable_windows (pw : xval) : Prop :=
  (∃ s, pw = XStr s) ∨ (∃ ss, pw = XList (XStr <$> ss)).

(** A reference with the keys the sentence needs. *)
Definition has_keys (keys : list string) (x : xval) : Prop :=
  ∃ m, x = XDict m ∧ Forall (λ k, is_Some (m !! k)) keys.

(** The cell is a text that starts with [p]. *)
Definition starts_with (p : string) (v : xval) : bool :=
  match v with
  | XStr s => Str.is_prefix p s
  | _ => false
  end.




(** A sample link without text, and the markup of a tag left out. *)
Definition no_markup : node → string := λ _, "".

Definition empty_link : node := Tag "a" [("href", "apt/1234.aptx")] [].


(** ** The result monad *)

Lemma bind_Ok {A B} (m : result A) (f : A → result B) (b : B) :
  m ≫= f = Ok b ↔ ∃ a, m = Ok a ∧ f a = Ok b.
Proof.
  destruct m as [a|e]; simpl; split.
  - intros H. exists a. by split.
  - by intros (a' & [= <-] & H).
  - intros H. discriminate H.
  - by intros (a' & H & _).
Qed.

Lemma fmap_Ok {A B} (f : A → B) (m : result A) (b : B) :
  f <$> m = Ok b ↔ ∃ a, m = Ok a ∧ b = f a.
Proof.
  destruct m as [a|e]; simpl; split.
  - intros [= <-]. by exists a.
  - by intros (a' & [= <-] & ->).
  - intros H. discriminate H.
  - by intros (a' & H & _).
Qed.

Lemma except_IndexError_Ok {A} (body handler : result A) (x : A) :
  except_IndexError body handler = Ok x ↔
  body = Ok x ∨ (body = Raise IndexError ∧ handler = Ok x).
Proof.
  destruct body as [a|[]]; simpl; split; try discriminate;
    intuition (try discriminate; auto).
Qed.

Lemma getitem_Ok (v x : xval) (k : string) :
  getitem v k = Ok x ↔ ∃ d, v = XDict d ∧ d !! k = Some x.
Proof.
  split.
  - destruct v as [| |l|d]; simpl; try discriminate.
    destruct (d !! k) as [y|] eqn:E; [|discriminate].
    intros [= ->]. by exists d.
  - intros (d & -> & H). simpl. by rewrite H.
Qed.

Lemma contains_dict (k : string) (d : gmap string xval) :
  contains k (XDict d) = Ok (bool_decide (is_Some (d !! k))).
Proof. reflexivity. Qed.

(** Peel the successful steps of a monadic computation in a hypothesis. *)
Ltac inv_bind H :=
  let a := fresh "a" in
  let Ha := fresh "Hstep" in
  apply bind_Ok in H as (a & Ha & H).

(** ** Strings *)

Lemma append_cons (x : ascii) (a b : string) :
  String x a +:+ b = String x (a +:+ b).
Proof. reflexivity. Qed.

Example split_words :
  Str.split (Str.strip "  12 months ") = ["12"; "months"]
  ∧ Str.split (Str.strip (String "010"%char " ")) = []
  ∧ Str.split_on "("%char "a (b) c (d)" = ["a "; "b) c "; "d)"]
  ∧ Str.join " " ["a"; "b"; "c"] = "a b c".
Proof. by vm_compute. Qed.

Lemma split_on_head (c : ascii) (s : string) :
  ∃ h t, Str.split_on c s = h :: t.
Proof.
  induction s as [|a s (h & t & IH)]; simpl.
  - by eexists _, _.
  - destruct (Ascii.eqb a c); [by eexists _, _|].
    rewrite IH. by eexists _, _.
Qed.

Lemma split_paren_head (s : string) :
  Str.split_on "("%char s !! 0 = Some (before_paren s).
Proof.
  induction s as [|a s IH]; simpl; [done|].
  destruct (Ascii.eqb a "("%char); [done|].
  destruct (Str.split_on "("%char s) as [|h t]; simpl in *; [done|].
  by injection IH as ->.
Qed.

Lemma before_paren_annotated (w rest : string) :
  Str.mem "("%char w = false →
  before_paren (w +:+ String "("%char rest) = w.
Proof.
  induction w as [|a w IH]; [done|].
  rewrite append_cons. simpl.
  destruct (Ascii.eqb a "("%char); simpl; [done|].
  intros H. by rewrite IH.
Qed.

Lemma before_paren_plain (w : string) :
  Str.mem "("%char w = false → before_paren w = w.
Proof.
  induction w as [|a w IH]; simpl; [done|].
  destruct (Ascii.eqb a "("%char); simpl; [done|].
  intros H. by rewrite IH.
Qed.

Lemma append_assoc (a b c : string) : (a +:+ b) +:+ c = a +:+ (b +:+ c).
Proof.
  induction a as [|x a IH]; [done|].
  by rewrite !append_cons, IH.
Qed.





Lemma append_empty_r (a : string) : a +:+ "" = a.
Proof.
  induction a as [|x a IH]; [done|]. by rewrite append_cons, IH.
Qed.

(** ** The visit record normaliser *)

Lemma plan_windows_Ok (l : list xval) (pws s : string) :
  plan_windows l pws = Ok s ↔
  ∃ ss, l = XStr <$> ss ∧ s = pws +:+ spaced ss.
Proof.
  revert pws. induction l as [|i rest IH]; intros pws; simpl.
  - split.
    + intros [= <-]. exists []. by rewrite append_empty_r.
    + intros (ss & Hss & ->). destruct ss; [|done].
      simpl. by rewrite append_empty_r.
  - destruct i as [|w|l'|d']; simpl;
      try (split; [discriminate | by intros ([|? ?] & ? & _)]).
    unfold index. rewrite split_paren_head. simpl.
    rewrite IH. split.
    + intros (ss & -> & ->). exists (w :: ss). split; [done|].
      simpl. by rewrite !append_assoc.
    + intros ([|w' ss] & Hss & ->); [done|].
      injection Hss as <- ->. exists ss. split; [done|].
      simpl. by rewrite !append_assoc.
Qed.

Lemma resolve_plan_window_Ok (d : gmap string xval) (v : xval) :
  resolve_plan_window (XDict d) = Ok v ↔ plan_window_resolution d v.
Proof.
  unfold resolve_plan_window. rewrite !contains_dict. simpl.
  split.
  - destruct (d !! "planWindow") as [pw|] eqn:Epw; simpl.
    + destruct pw as [|w|l|d']; simpl; try discriminate.
      * unfold index. rewrite split_paren_head. simpl.
        intros [= <-]. by constructor.
      * intros H. inv_bind H. injection H as <-.
        apply plan_windows_Ok in Hstep as (ss & -> & ->).
        by constructor.
    + destruct (d !! "longRangePlanStatus") as [lr|] eqn:Elr; simpl.
      * intros [= <-]. by constructor.
      * intros [= <-]. by constructor.
  - intros [s Hs|ss Hs|Hpw [lr Hlr]|Hpw Hlr]; rewrite ?Hs, ?Hpw, ?Hlr; simpl.
    + unfold index. by rewrite split_paren_head.
    + assert (plan_windows (XStr <$> ss) "" = Ok (spaced ss)) as ->; [|done].
      apply plan_windows_Ok. by exists ss.
    + done.
    + done.
Qed.

Lemma plan_window_resolution_det (d : gmap string xval) (v v' : xval) :
  plan_window_resolution d v → plan_window_resolution d v' → v = v'.
Proof.
  rewrite <-!resolve_plan_window_Ok. congruence.
Qed.

Lemma getitem_dict (d : gmap string xval) (k : string) :
  getitem (XDict d) k =
  match d !! k with
  | Some x => Ok x
  | None => Raise KeyError
  end.
Proof. reflexivity. Qed.

Lemma resolve_repeat_Ok py_repr (d : gmap string xval) (v : xval) :
  resolve_repeat py_repr (XDict d) = Ok v ↔ repeat_resolution py_repr d v.
Proof.
  unfold resolve_repeat. rewrite !contains_dict, !getitem_dict. simpl.
  split.
  - destruct (d !! "repeatedBy") as [rb|] eqn:Erb; simpl.
    { intros H. do 3 inv_bind H. injection H as <-.
      apply getitem_Ok in Hstep as (m & -> & Hpid).
      apply getitem_Ok in Hstep0 as (m' & [= <-] & Hobs).
      apply getitem_Ok in Hstep1 as (m' & [= <-] & Hvis).
      by econstructor 1. }
    destruct (d !! "repeatOf") as [ro|] eqn:Ero; simpl.
    { intros H. do 3 inv_bind H. injection H as <-.
      apply getitem_Ok in Hstep as (m & -> & Hobs).
      apply getitem_Ok in Hstep0 as (m' & [= <-] & Hvis).
      apply getitem_Ok in Hstep1 as (m' & [= <-] & Hpid).
      by econstructor 2. }
    destruct (d !! "approvedRepeat") as [ar|] eqn:Ear; simpl.
    { intros H. inv_bind H. injection H as <-.
      apply getitem_Ok in Hstep as (m & -> & Hpid).
      by econstructor 3. }
    intros [= <-]. by constructor 4.
  - intros [rb pid obs vis Hrb Hpid Hobs Hvis
           |ro obs vis pid Hrb Hro Hobs Hvis Hpid
           |ar pid Hrb Hro Har Hpid
           |Hrb Hro Har];
      rewrite ?Hrb, ?Hro, ?Har; simpl;
      rewrite ?Hpid, ?Hobs, ?Hvis; simpl; done.
Qed.

Lemma repeat_resolution_det py_repr (d : gmap string xval) (v v' : xval) :
  repeat_resolution py_repr d v → repeat_resolution py_repr d v' → v = v'.
Proof.
  rewrite <-!resolve_repeat_Ok. congruence.
Qed.

(** The loop body on a dict: the six direct cells, the two optional times and
    the two resolutions. *)
Lemma make_visit_dict_Ok py_repr (vd : xval) (r : visit_dict) :
  make_visit_dict py_repr vd = Ok r ↔
  ∃ d, vd = XDict d
    ∧ d !! "@observation" = Some (observation r)
    ∧ d !! "@visit" = Some (visit r)
    ∧ d !! "status" = Some (status r)
    ∧ d !! "target" = Some (target r)
    ∧ d !! "configuration" = Some (configuration r)
    ∧ d !! "hours" = Some (hours r)
    ∧ start_ut r = default XNone (d !! "startTime")
    ∧ end_ut r = default XNone (d !! "endTime")
    ∧ plan_window_resolution d (plan_window r)
    ∧ repeat_resolution py_repr d (repeat r).
Proof.
  unfold make_visit_dict. split.
  - intros H. inv_bind H.
    apply getitem_Ok in Hstep as (d & -> & Ho).
    exists d. rewrite !contains_dict, !getitem_dict in H. simpl in H.
    destruct (d !! "@visit") as [v|]; [|done].
    destruct (d !! "status") as [s|]; [|done].
    destruct (d !! "target") as [t|]; [|done].
    destruct (d !! "configuration") as [c|]; [|done].
    destruct (d !! "hours") as [h|]; [|done].
    simpl in H.
    assert (∀ k, (if bool_decide (is_Some (d !! k))
                  then match d !! k with
                       | Some x => Ok x
                       | None => Raise KeyError
                       end
                  else Ok XNone) = Ok (default XNone (d !! k))) as Hopt.
    { intros k. by destruct (d !! k). }
    rewrite !Hopt in H. simpl in H.
    do 2 inv_bind H. injection H as <-. simpl.
    apply resolve_plan_window_Ok in Hstep.
    apply resolve_repeat_Ok in Hstep0.
    done.
  - intros (d & -> & Ho & Hv & Hs & Ht & Hc & Hh & Hst & Het & Hpw & Hrp).
    apply resolve_plan_window_Ok in Hpw.
    apply (resolve_repeat_Ok py_repr) in Hrp.
    rewrite !contains_dict, !getitem_dict. simpl.
    rewrite Ho, Hv, Hs, Ht, Hc, Hh. simpl.
    rewrite Hpw, Hrp.
    destruct r; simpl in *; subst.
    by destruct (d !! "startTime"), (d !! "endTime").
Qed.

Lemma visit_loop_Ok py_repr (vds : list xval) (visits rows : list visit_dict) :
  visit_loop py_repr vds visits = Ok rows ↔
  ∃ new, rows = visits ++ new
       ∧ Forall2 (λ vd r, make_visit_dict py_repr vd = Ok r) vds new.
Proof.
  revert visits. induction vds as [|vd rest IH]; intros visits; simpl.
  - split.
    + intros [= <-]. exists []. by rewrite app_nil_r.
    + intros (new & -> & Hnew). apply Forall2_nil_inv_l in Hnew as ->.
      by rewrite app_nil_r.
  - rewrite bind_Ok. setoid_rewrite IH. split.
    + intros (r & Hr & new & -> & Hnew). exists (r :: new).
      rewrite <-app_assoc. split; [done|]. by constructor.
    + intros (new & -> & Hnew).
      apply Forall2_cons_inv_l in Hnew as (r & new' & Hr & Hnew & ->).
      exists r. split; [done|]. exists new'.
      by rewrite <-app_assoc.
Qed.

Lemma get_visit_status_Ok py_repr (visit_data : xval) (rows : list visit_dict) :
  get_visit_status py_repr visit_data = Ok rows ↔
  ∃ vds, visit_data_list visit_data = Ok vds
       ∧ Forall2 (λ vd r, make_visit_dict py_repr vd = Ok r) vds rows.
Proof.
  unfold get_visit_status. rewrite bind_Ok.
  apply exist_proper; intros vds. rewrite visit_loop_Ok. split.
  - by intros (H & new & -> & Hnew).
  - intros (H & Hnew). split; [done|]. by exists rows.
Qed.

(** ** Plan window and repeat resolution *)

Lemma get_visit_status_entries py_repr (P : gmap string xval → visit_dict → Prop)
    (visit_data : xval) (rows : list visit_dict) :
  (∀ d r, make_visit_dict py_repr (XDict d) = Ok r → P d r) →
  get_visit_status py_repr visit_data = Ok rows →
  ∃ vds, visit_data_list visit_data = Ok vds
       ∧ Forall2 (λ vd r, ∃ d, vd = XDict d ∧ P d r) vds rows.
Proof.
  intros HP (vds & Hvds & Hrows)%get_visit_status_Ok.
  exists vds. split; [done|].
  eapply Forall2_impl; [exact Hrows|].
  intros vd r Hr. simpl in Hr.
  pose proof Hr as (d & -> & _)%make_visit_dict_Ok.
  exists d. split; [done|]. by apply HP.
Qed.

(** C1 (as amended): every row that [get_visit_status] produces has its
    [plan_window] resolved by exactly one of three branches, in priority
    order: the explicit window (stripped of its annotation) or, for a list of
    windows, each stripped window followed by one space; else the long range
    placeholder; else null. *)
Theorem plan_window_resolved py_repr (visit_data : xval)
    (rows : list visit_dict) :
  get_visit_status py_repr visit_data = Ok rows →
  ∃ vds, visit_data_list visit_data = Ok vds
       ∧ Forall2 (λ vd r, ∃ d, vd = XDict d
                    ∧ (plan_window_resolution d (plan_window r)
                       ∧ ∀ v, plan_window_resolution d v → v = plan_window r))
                 vds rows.
Proof.
  apply get_visit_status_entries.
  intros d r (d' & [= <-] & H)%make_visit_dict_Ok.
  destruct H as (_ & _ & _ & _ & _ & _ & _ & _ & Hpw & _).
  split; [done|].
  intros v Hv. by eapply plan_window_resolution_det.
Qed.

Lemma plan_window_resolved_witness :
  ∃ vds, visit_data_list (report_of (XDict entry_two_windows)) = Ok vds
       ∧ Forall2 (λ vd r, ∃ d, vd = XDict d
                    ∧ (plan_window_resolution d (plan_window r)
                       ∧ ∀ v, plan_window_resolution d v → v = plan_window r))
                 vds
                 [set_plan_window (XStr "2023.060 - 2023.064  2023.092 - 2023.099  ")
                                  row_base].
Proof.
  apply (plan_window_resolved flat_repr).
  vm_compute. reflexivity.
Defined.

(** C1, the claim as worded: two windows joined with single spaces are not
    what the list branch produces. *)
Lemma plan_window_join_counterexample :
  entry_two_windows !! "planWindow" = Some (XList (XStr <$> two_windows))
  ∧ ∃ r, get_visit_status flat_repr (report_of (XDict entry_two_windows))
         = Ok [r]
       ∧ plan_window r
         ≠ XStr (Str.join " " (before_paren <$> two_windows)).
Proof.
  split; [by vm_compute|].
  eexists. split; [vm_compute; reflexivity|].
  vm_compute. discriminate.
Qed.

(** C2: every row that [get_visit_status] produces has its [repeat] resolved
    by exactly one of four branches, in priority order: the rescheduled-by
    sentence, else the repeat-of sentence, else the approved-repeat sentence,
    else null. *)
Theorem repeat_resolved py_repr (visit_data : xval) (rows : list visit_dict) :
  get_visit_status py_repr visit_data = Ok rows →
  ∃ vds, visit_data_list visit_data = Ok vds
       ∧ Forall2 (λ vd r, ∃ d, vd = XDict d
                    ∧ (repeat_resolution py_repr d (repeat r)
                       ∧ ∀ v, repeat_resolution py_repr d v → v = repeat r))
                 vds rows.
Proof.
  apply get_visit_status_entries.
  intros d r (d' & [= <-] & H)%make_visit_dict_Ok.
  destruct H as (_ & _ & _ & _ & _ & _ & _ & _ & _ & Hrp).
  split; [done|].
  intros v Hv. by eapply repeat_resolution_det.
Qed.

Lemma repeat_resolved_witness :
  ∃ vds, visit_data_list (report_of (XList [XDict entry_repeated;
                                            XDict entry_base])) = Ok vds
       ∧ Forall2 (λ vd r, ∃ d, vd = XDict d
                    ∧ (repeat_resolution flat_repr d (repeat r)
                       ∧ ∀ v, repeat_resolution flat_repr d v → v = repeat r))
                 vds
                 [VisitDict (XStr "1") (XStr "1") (XStr "Scheduled")
                    (XStr "T1") (XStr "NIRCam") (XStr "2.0") XNone XNone XNone
                    (XStr "Rescheduled by WOPR 12345 as observation 7 visit 1 in this program");
                  row_base].
Proof.
  apply (repeat_resolved flat_repr).
  vm_compute. reflexivity.
Defined.

(** ** Scalar and list shapes of the visits *)

Lemma visit_data_list_with_visits (root report : gmap string xval) (v : xval) :
  visit_data_list (with_visits root report v) =
  Ok match v with
     | XList l => l
     | _ => [v]
     end.
Proof.
  unfold visit_data_list, with_visits.
  rewrite getitem_dict, lookup_insert_eq. simpl.
  rewrite lookup_insert_eq. simpl. by destruct v.
Qed.

Lemma get_visit_status_with_visits py_repr (root report : gmap string xval)
    (v : xval) :
  get_visit_status py_repr (with_visits root report v) =
  visit_loop py_repr match v with
                     | XList l => l
                     | _ => [v]
                     end [].
Proof.
  unfold get_visit_status. by rewrite visit_data_list_with_visits.
Qed.

Lemma visit_loop_single py_repr (vd : xval) :
  visit_loop py_repr [vd] [] = (λ r, [r]) <$> make_visit_dict py_repr vd.
Proof. simpl. by destruct (make_visit_dict py_repr vd). Qed.

(** C3: a report whose visit field is the bare entry [e] and the report whose
    visit field is the one-element list of [e] give the same outcome; and for
    a list of entries the rows are, in order, the rows of its entries taken
    one at a time. *)
Theorem scalar_visit_normalised py_repr (root report : gmap string xval) :
  (∀ e, is_list e = false →
        get_visit_status py_repr (with_visits root report e)
        = get_visit_status py_repr (with_visits root report (XList [e])))
  ∧ (∀ l rows,
        get_visit_status py_repr (with_visits root report (XList l)) = Ok rows
        ↔ Forall2 (λ e r, get_visit_status py_repr
                            (with_visits root report (XList [e])) = Ok [r])
                  l rows).
Proof.
  split.
  - intros e He. rewrite !get_visit_status_with_visits.
    by destruct e.
  - intros l rows. rewrite get_visit_status_with_visits, visit_loop_Ok.
    split.
    + intros (new & -> & Hnew). simpl.
      eapply Forall2_impl; [exact Hnew|].
      intros e r Hr. simpl in Hr.
      rewrite get_visit_status_with_visits, visit_loop_single.
      by rewrite Hr.
    + intros H. exists rows. split; [done|].
      eapply Forall2_impl; [exact H|].
      intros e r. simpl.
      rewrite get_visit_status_with_visits, visit_loop_single.
      intros (r' & Hr' & [= ->])%fmap_Ok. done.
Qed.

Lemma scalar_visit_normalised_witness :
  get_visit_status flat_repr (with_visits ∅ ∅ (XDict entry_base))
  = get_visit_status flat_repr (with_visits ∅ ∅ (XList [XDict entry_base]))
  ∧ get_visit_status flat_repr (with_visits ∅ ∅ (XDict entry_base))
    = Ok [row_base].
Proof.
  split.
  - apply (proj1 (scalar_visit_normalised flat_repr ∅ ∅)). reflexivity.
  - vm_compute. reflexivity.
Defined.

(** ** Optional start and end times *)

Lemma resolve_plan_window_ext (d d' : gmap string xval) :
  d !! "planWindow" = d' !! "planWindow" →
  d !! "longRangePlanStatus" = d' !! "longRangePlanStatus" →
  resolve_plan_window (XDict d) = resolve_plan_window (XDict d').
Proof.
  intros H1 H2. unfold resolve_plan_window.
  by rewrite !contains_dict, !getitem_dict, H1, H2.
Qed.

Lemma resolve_repeat_ext py_repr (d d' : gmap string xval) :
  d !! "repeatedBy" = d' !! "repeatedBy" →
  d !! "repeatOf" = d' !! "repeatOf" →
  d !! "approvedRepeat" = d' !! "approvedRepeat" →
  resolve_repeat py_repr (XDict d) = resolve_repeat py_repr (XDict d').
Proof.
  intros H1 H2 H3. unfold resolve_repeat.
  by rewrite !contains_dict, !getitem_dict, H1, H2, H3.
Qed.





(** ** The list branch of the plan window *)




(** ** The status filter *)

Lemma Select_filter {A} (f : A → bool) (P : A → Prop) (l : list A) :
  (∀ x, f x = true ↔ P x) → Select P l (List.filter f l).
Proof.
  intros HP. induction l as [|x l IH]; simpl; [constructor|].
  destruct (f x) eqn:E.
  - constructor 2; [by apply HP | done].
  - constructor 3; [|done]. rewrite <-HP. congruence.
Qed.

Lemma Select_det {A} (P : A → Prop) (l k k' : list A) :
  Select P l k → Select P l k' → k = k'.
Proof.
  intros H. revert k'. induction H as [|x l k Hx _ IH|x l k Hx _ IH];
    intros k' H'; inversion H'; subst; try done.
  by rewrite (IH _ ltac:(eassumption)).
  all: by apply IH.
Qed.

Lemma filter_filter {A} (f g : A → bool) (l : list A) :
  List.filter g (List.filter f l) = List.filter (λ x, f x && g x) l.
Proof.
  induction l as [|x l IH]; simpl; [done|].
  destruct (f x); simpl; [|done].
  destruct (g x); by rewrite IH.
Qed.

Lemma notnull_true (v : xval) : notnull v = true ↔ v ≠ XNone.
Proof. destruct v; simpl; split; congruence. Qed.

Lemma eq_str_true (k : string) (v : xval) : eq_str k v = true ↔ v = XStr k.
Proof.
  destruct v as [|s| |]; simpl; try (split; congruence).
  rewrite bool_decide_eq_true. split; congruence.
Qed.

(** C4 (as amended): [filter_df_by_status] keeps, in the original order,
    exactly the rows with a non-null status when the selector is the text
    [All], and exactly the rows whose non-null status is the selector, letter
    for letter, for any other selector. *)
Theorem filter_selects (selector : string) (df : list visit_dict) :
  (selector = "All" →
     Select (λ r, status r ≠ XNone) df
            (fst (filter_df_by_status selector df)))
  ∧ (selector ≠ "All" →
     Select (λ r, status r ≠ XNone ∧ status r = XStr selector) df
            (fst (filter_df_by_status selector df))).
Proof.
  unfold filter_df_by_status. simpl. split; intros Hsel.
  - rewrite bool_decide_eq_true_2 by done.
    apply Select_filter. intros r. apply notnull_true.
  - rewrite bool_decide_eq_false_2 by done.
    rewrite filter_filter. apply Select_filter. intros r.
    rewrite andb_true_iff, notnull_true, eq_str_true. done.
Qed.

Lemma filter_selects_witness :
  Select (λ r, status r ≠ XNone) sample_table
         (row_with_status <$> [XStr "Scheduled"; XStr "Executed";
                               XStr "Scheduled"; XStr "scheduled";
                               XStr "Withdrawn"])
  ∧ Select (λ r, status r ≠ XNone ∧ status r = XStr "Scheduled") sample_table
           (row_with_status <$> [XStr "Scheduled"; XStr "Scheduled"]).
Proof.
  split.
  - apply (proj1 (filter_selects "All" sample_table)). reflexivity.
  - apply (proj2 (filter_selects "Scheduled" sample_table)). discriminate.
Defined.

(** C4, the claim as worded: the lower-case selector [all] is an ordinary
    status value, so it does not return the rows with a non-null status. *)
Lemma lowercase_all_counterexample :
  filter_df_by_status "all" sample_table = ([], 3%Z)
  ∧ ¬ Select (λ r, status r ≠ XNone) sample_table
             (fst (filter_df_by_status "all" sample_table)).
Proof.
  split; [reflexivity|].
  intros H.
  assert (Select (λ r, status r ≠ XNone) sample_table
            (List.filter (λ r, notnull (status r)) sample_table)) as H'.
  { apply Select_filter. intros r. apply notnull_true. }
  pose proof (Select_det _ _ _ _ H H') as E.
  vm_compute in E. discriminate E.
Qed.



(** ** The field extractor *)

Lemma int_call_Ok {float} (py_int : string → option Z) (v x : pval float) :
  int_call float py_int v = Ok x ↔
  ∃ s z, v = PStr s ∧ py_int s = Some z ∧ x = PInt z.
Proof.
  split.
  - destruct v as [s| | | |]; simpl; try discriminate.
    destruct (py_int s) as [z|] eqn:E; [|discriminate].
    intros [= <-]. by exists s, z.
  - intros (s & z & -> & E & ->). simpl. by rewrite E.
Qed.

Lemma float_call_Ok {float} (py_float : string → option float) (s : string)
    (x : pval float) :
  float_call float py_float s = Ok x ↔ ∃ f, py_float s = Some f ∧ x = PFloat f.
Proof.
  unfold float_call. destruct (py_float s) as [f|]; split.
  - intros [= <-]. by exists f.
  - by intros (f' & [= <-] & ->).
  - discriminate.
  - by intros (f' & ? & _).
Qed.




Lemma content_Ok (ps : list node) (i j : nat) (n : node) :
  content ps i j = Ok n ↔
  ∃ nm at_ cs, ps !! i = Some (Tag nm at_ cs) ∧ cs !! j = Some n.
Proof.
  unfold content, index. split.
  - destruct (ps !! i) as [[e|nm at_ cs]|]; simpl; try discriminate.
    destruct (cs !! j) as [n'|] eqn:E; [|discriminate].
    intros [= <-]. by exists nm, at_, cs.
  - intros (nm & at_ & cs & -> & E). simpl. by rewrite E.
Qed.


Lemma program_info_dom {float} (pi pi_inst title : pval float) (cycle : Z)
    (allocation : float) (excl_time : Z) (ptype apt pdf : node) :
  dom (program_info pi pi_inst title cycle allocation excl_time ptype apt pdf)
  = program_info_keys.
Proof.
  unfold program_info, program_info_keys.
  rewrite !dom_insert_L, dom_empty_L. set_solver.
Qed.

Lemma program_info_non_empty {float} (pi pi_inst title : pval float)
    (cycle : Z) (allocation : float) (excl_time : Z) (ptype apt pdf : node) :
  program_info pi pi_inst title cycle allocation excl_time ptype apt pdf ≠ ∅.
Proof. apply insert_non_empty. Qed.

(** What a successful extraction from a page with paragraphs went through. *)
Lemma get_prop_info_Ok {float} (py_int : string → option Z)
    (py_float : string → option float) (html_data : node)
    (m : gmap string (pval float)) :
  find_all "p" html_data ≠ [] →
  get_prop_info float py_int py_float html_data = Ok m →
  ∃ pi pi_inst title cycle allocation excl_time ptype apt pdf n9,
    m = program_info pi pi_inst title cycle allocation excl_time ptype apt pdf
    ∧ content (find_all "p" html_data) 1 9 = Ok n9
    ∧ except_IndexError
        (n ← content_last (find_all "p" html_data) 1;
         tok ← first_token float n;
         int_call float py_int (PStr tok))
        (Ok (PInt 0)) = Ok (PInt excl_time).
Proof.
  unfold get_prop_info.
  destruct (find_all "p" html_data) as [|p0 ps] eqn:Eps; [done|].
  intros _ H. cbv zeta in H.
  apply bind_Ok in H as (n1 & _ & H). apply bind_Ok in H as (pi & _ & H).
  apply bind_Ok in H as (n5 & _ & H). apply bind_Ok in H as (pi_inst & _ & H).
  apply bind_Ok in H as (m1 & _ & H). apply bind_Ok in H as (title & _ & H).
  apply bind_Ok in H as (m5 & _ & H). apply bind_Ok in H as (v & _ & H).
  apply bind_Ok in H as (cycle & Hcycle & H).
  apply bind_Ok in H as (n9 & Hn9 & H). apply bind_Ok in H as (tok & _ & H).
  apply bind_Ok in H as (allocation & Hallocation & H).
  apply bind_Ok in H as (excl & Hexcl & H).
  apply bind_Ok in H as (h & _ & H). apply bind_Ok in H as (hc & _ & H).
  apply bind_Ok in H as (hn & _ & H). apply bind_Ok in H as (nc & _ & H).
  apply bind_Ok in H as (ptype & _ & H).
  apply bind_Ok in H as (apt & _ & H). apply bind_Ok in H as (pdf & _ & H).
  injection H as <-.
  apply int_call_Ok in Hcycle as (s & z & _ & _ & ->).
  apply float_call_Ok in Hallocation as (f & _ & ->).
  assert (∃ z, excl = PInt z) as [excl_time ->].
  { apply except_IndexError_Ok in Hexcl as [Hbody|[_ [= <-]]]; [|by eexists].
    apply bind_Ok in Hbody as (n & _ & Hbody).
    apply bind_Ok in Hbody as (tok' & _ & Hbody).
    apply int_call_Ok in Hbody as (? & z' & _ & _ & ->). by eexists. }
  by eexists _, _, _, _, _, _, _, _, _, _.
Qed.


Lemma get_prop_info_no_paragraph {float} (py_int : string → option Z)
    (py_float : string → option float) (html_data : node) :
  find_all "p" html_data = [] →
  get_prop_info float py_int py_float html_data = Ok ∅.
Proof. intros H. unfold get_prop_info. by rewrite H. Qed.

(** C6: [get_prop_info] returns the empty mapping, without raising, on a page
    with no paragraph, and on no other page. *)
Theorem no_paragraph_empty {float} (py_int : string → option Z)
    (py_float : string → option float) (html_data : node) :
  get_prop_info float py_int py_float html_data = Ok ∅
  ↔ find_all "p" html_data = [].
Proof.
  split.
  - intros H. destruct (find_all "p" html_data) as [|p0 ps] eqn:Eps; [done|].
    apply get_prop_info_Ok in H as (? & ? & ? & ? & ? & ? & ? & ? & ? & ? & H & _);
      [|by rewrite Eps].
    symmetry in H. by apply program_info_non_empty in H.
  - apply get_prop_info_no_paragraph.
Qed.

Lemma no_paragraph_empty_witness :
  get_prop_info (Z * nat) dec_int dec_float page_not_found = Ok ∅.
Proof.
  apply (proj2 (no_paragraph_empty dec_int dec_float page_not_found)).
  reflexivity.
Defined.

(** C10: a mapping returned by [get_prop_info] is empty or is a whole
    [ProgramInfo]: its keys are exactly the nine keys, with an integer cycle,
    a float allocation and an integer exclusive period. *)
Theorem prop_info_all_or_nothing {float} (py_int : string → option Z)
    (py_float : string → option float) (html_data : node)
    (m : gmap string (pval float)) :
  get_prop_info float py_int py_float html_data = Ok m →
  m = ∅
  ∨ (dom m = program_info_keys
     ∧ ∃ pi pi_inst title cycle allocation excl_time ptype apt pdf,
         m = program_info pi pi_inst title cycle allocation excl_time
               ptype apt pdf).
Proof.
  intros H. destruct (find_all "p" html_data) as [|p0 ps] eqn:Eps.
  - left. unfold get_prop_info in H. rewrite Eps in H. by injection H as <-.
  - right.
    apply get_prop_info_Ok in H
      as (pi & pi_inst & title & cycle & allocation & excl_time & ptype & apt
          & pdf & n9 & -> & _); [|by rewrite Eps].
    split; [apply program_info_dom|].
    by eexists _, _, _, _, _, _, _, _, _.
Qed.

Lemma prop_info_all_or_nothing_witness :
  get_prop_info (Z * nat) dec_int dec_float page_exclusive
  = Ok (sample_info 12)
  ∧ (sample_info 12 = ∅
     ∨ (dom (sample_info 12) = program_info_keys
        ∧ ∃ pi pi_inst title cycle allocation excl_time ptype apt pdf,
            sample_info 12
            = program_info pi pi_inst title cycle allocation excl_time
                ptype apt pdf)).
Proof.
  assert (get_prop_info (Z * nat) dec_int dec_float page_exclusive
          = Ok (sample_info 12)) as H by (vm_compute; reflexivity).
  split; [exact H|].
  exact (prop_info_all_or_nothing dec_int dec_float page_exclusive _ H).
Defined.

(** ** The exclusive period *)




(** With the ten children up to the allocation, the last position is the
    allocation itself, which is no integer. *)
Example ten_children_raise :
  get_prop_info (Z * nat) dec_int dec_float page_ten_children
  = Raise ValueError.
Proof. reflexivity. Qed.

(** ** Rows and entries *)

Lemma bind_Raise {A B} (m : result A) (f : A → result B) (e : exn) :
  m = Raise e → m ≫= f = Raise e.
Proof. by intros ->. Qed.

Lemma getitem_required py_repr (vd : xval) (r : visit_dict) :
  make_visit_dict py_repr vd = Ok r →
  getitem vd "@observation" = Ok (observation r)
  ∧ getitem vd "@visit" = Ok (visit r)
  ∧ getitem vd "status" = Ok (status r)
  ∧ getitem vd "target" = Ok (target r)
  ∧ getitem vd "configuration" = Ok (configuration r)
  ∧ getitem vd "hours" = Ok (hours r)
  ∧ (∀ x, getitem vd "startTime" = Ok x → start_ut r = x)
  ∧ (∀ x, getitem vd "endTime" = Ok x → end_ut r = x).
Proof.
  intros (d & -> & Ho & Hv & Hs & Ht & Hc & Hh & Hst & Het & _)%make_visit_dict_Ok.
  rewrite !getitem_dict, Ho, Hv, Hs, Ht, Hc, Hh, Hst, Het.
  repeat split; try done.
  - destruct (d !! "startTime"); by intros y [= <-].
  - destruct (d !! "endTime"); by intros y [= <-].
Qed.

(** X1: [get_visit_status] returns one row per entry, in order, none dropped;
    the six direct cells are the entry's values as they are, and so are the
    start and end times when the entry has them. *)
Theorem rows_copy_entries py_repr (visit_data : xval)
    (rows : list visit_dict) :
  get_visit_status py_repr visit_data = Ok rows →
  ∃ vds, visit_data_list visit_data = Ok vds
       ∧ length rows = length vds
       ∧ Forall2 (λ vd r,
             getitem vd "@observation" = Ok (observation r)
             ∧ getitem vd "@visit" = Ok (visit r)
             ∧ getitem vd "status" = Ok (status r)
             ∧ getitem vd "target" = Ok (target r)
             ∧ getitem vd "configuration" = Ok (configuration r)
             ∧ getitem vd "hours" = Ok (hours r)
             ∧ (∀ x, getitem vd "startTime" = Ok x → start_ut r = x)
             ∧ (∀ x, getitem vd "endTime" = Ok x → end_ut r = x))
           vds rows.
Proof.
  intros (vds & Hvds & Hrows)%get_visit_status_Ok.
  exists vds. split; [done|]. split.
  - symmetry. by eapply Forall2_length.
  - eapply Forall2_impl; [exact Hrows|].
    intros vd r Hr. by apply (getitem_required py_repr).
Qed.

Lemma rows_copy_entries_witness :
  ∃ vds, visit_data_list (report_of (XList [XDict entry_full;
                                            XDict entry_base])) = Ok vds
       ∧ length [row_full; row_base] = length vds
       ∧ Forall2 (λ vd r,
             getitem vd "@observation" = Ok (observation r)
             ∧ getitem vd "@visit" = Ok (visit r)
             ∧ getitem vd "status" = Ok (status r)
             ∧ getitem vd "target" = Ok (target r)
             ∧ getitem vd "configuration" = Ok (configuration r)
             ∧ getitem vd "hours" = Ok (hours r)
             ∧ (∀ x, getitem vd "startTime" = Ok x → start_ut r = x)
             ∧ (∀ x, getitem vd "endTime" = Ok x → end_ut r = x))
           vds [row_full; row_base].
Proof.
  apply (rows_copy_entries flat_repr).
  vm_compute. reflexivity.
Defined.

Lemma visit_loop_Raise py_repr (good rest : list xval) (bad : xval)
    (visits : list visit_dict) (e : exn) :
  Forall (λ vd, ∃ r, make_visit_dict py_repr vd = Ok r) good →
  make_visit_dict py_repr bad = Raise e →
  visit_loop py_repr (good ++ bad :: rest) visits = Raise e.
Proof.
  intros Hgood Hbad. revert visits.
  induction Hgood as [|vd good [r Hr] _ IH]; intros visits; simpl.
  - by rewrite Hbad.
  - rewrite Hr. simpl. apply IH.
Qed.

(** X2: one entry that cannot be normalised aborts the whole table: the call
    raises what the first such entry raises, whatever follows it. *)
Theorem first_failing_entry_aborts py_repr (visit_data : xval)
    (good rest : list xval) (bad : xval) (e : exn) :
  visit_data_list visit_data = Ok (good ++ bad :: rest) →
  Forall (λ vd, ∃ r, make_visit_dict py_repr vd = Ok r) good →
  make_visit_dict py_repr bad = Raise e →
  get_visit_status py_repr visit_data = Raise e.
Proof.
  intros Hvds Hgood Hbad. unfold get_visit_status. rewrite Hvds. simpl.
  by apply visit_loop_Raise.
Qed.

Lemma first_failing_entry_aborts_witness :
  get_visit_status flat_repr
    (report_of (XList [XDict entry_base;
                       XDict (delete "status" entry_base);
                       XStr "text"]))
  = Raise KeyError.
Proof.
  apply (first_failing_entry_aborts flat_repr _ [XDict entry_base]
           [XStr "text"] (XDict (delete "status" entry_base))).
  - vm_compute. reflexivity.
  - constructor; [|constructor]. exists row_base. vm_compute. reflexivity.
  - vm_compute. reflexivity.
Defined.

(** X3: an entry that lacks one of the six required keys raises [KeyError],
    whatever else it carries; an entry that is not a dict raises
    [TypeError]. *)
Theorem required_keys_enforced py_repr :
  (∀ d k, k ∈ required_keys → d !! k = None →
          make_visit_dict py_repr (XDict d) = Raise KeyError)
  ∧ (∀ vd, (∀ d, vd ≠ XDict d) →
           make_visit_dict py_repr vd = Raise TypeError).
Proof.
  split.
  - intros d k Hk Hnone. unfold make_visit_dict. rewrite !getitem_dict.
    unfold required_keys in Hk.
    destruct (d !! "@observation") eqn:E1; [|done].
    destruct (d !! "@visit") eqn:E2; [|done].
    destruct (d !! "status") eqn:E3; [|done].
    destruct (d !! "target") eqn:E4; [|done].
    destruct (d !! "configuration") eqn:E5; [|done].
    destruct (d !! "hours") eqn:E6; [|done].
    exfalso.
    repeat (apply elem_of_cons in Hk as [->|Hk]; [congruence|]).
    by apply elem_of_nil in Hk.
  - intros vd Hvd. unfold make_visit_dict.
    destruct vd as [| | |d]; try done. by destruct (Hvd d).
Qed.

Lemma required_keys_enforced_witness :
  make_visit_dict flat_repr (XDict (delete "hours" entry_full))
  = Raise KeyError
  ∧ make_visit_dict flat_repr XNone = Raise TypeError.
Proof.
  split.
  - apply (proj1 (required_keys_enforced flat_repr) _ "hours").
    + unfold required_keys. by repeat constructor.
    + vm_compute. reflexivity.
  - apply (proj2 (required_keys_enforced flat_repr)). discriminate.
Defined.

(** X4: the report must be a dict with a dict under [visitStatusReport] that
    has a [visit] field, which is taken as the list it is or wrapped when it
    is a single entry.  A missing key raises [KeyError] (so does a report
    without any visit), and a [visitStatusReport] that is no dict raises
    [TypeError]. *)
Theorem report_shape (visit_data : xval) :
  (∀ vds, visit_data_list visit_data = Ok vds ↔
          ∃ root report v,
            visit_data = XDict root
            ∧ root !! "visitStatusReport" = Some (XDict report)
            ∧ report !! "visit" = Some v
            ∧ vds = match v with
                    | XList l => l
                    | _ => [v]
                    end)
  ∧ (∀ root, visit_data = XDict root →
             root !! "visitStatusReport" = None →
             visit_data_list visit_data = Raise KeyError)
  ∧ (∀ root report, visit_data = XDict root →
                    root !! "visitStatusReport" = Some (XDict report) →
                    report !! "visit" = None →
                    visit_data_list visit_data = Raise KeyError)
  ∧ (∀ root x, visit_data = XDict root →
               root !! "visitStatusReport" = Some x →
               (∀ report, x ≠ XDict report) →
               visit_data_list visit_data = Raise TypeError).
Proof.
  unfold visit_data_list. split; [|split; [|split]].
  - intros vds. split.
    + intros H. apply bind_Ok in H as (rep & Hrep & H).
      apply bind_Ok in H as (v & Hv & H).
      apply getitem_Ok in Hrep as (root & -> & Hroot).
      apply getitem_Ok in Hv as (report & -> & Hreport).
      exists root, report, v. repeat split; try done.
      destruct v; by injection H as <-.
    + intros (root & report & v & -> & Hroot & Hreport & ->).
      rewrite getitem_dict, Hroot. simpl. rewrite Hreport. simpl.
      by destruct v.
  - intros root -> Hroot. by rewrite getitem_dict, Hroot.
  - intros root report -> Hroot Hreport.
    rewrite getitem_dict, Hroot. simpl. by rewrite Hreport.
  - intros root x -> Hroot Hx. rewrite getitem_dict, Hroot. simpl.
    destruct x as [| | |report]; try done. by destruct (Hx report).
Qed.

Lemma report_shape_witness :
  visit_data_list (XDict ∅) = Raise KeyError
  ∧ visit_data_list (XDict {[ "visitStatusReport" := XDict ∅ ]})
    = Raise KeyError
  ∧ visit_data_list (XDict {[ "visitStatusReport" := XNone ]})
    = Raise TypeError.
Proof.
  split; [|split].
  - apply (proj1 (proj2 (report_shape (XDict ∅))) ∅); reflexivity.
  - apply (proj1 (proj2 (proj2
             (report_shape (XDict {[ "visitStatusReport" := XDict ∅ ]}))))
             {[ "visitStatusReport" := XDict ∅ ]} ∅); reflexivity.
  - apply (proj2 (proj2 (proj2
             (report_shape (XDict {[ "visitStatusReport" := XNone ]}))))
             {[ "visitStatusReport" := XNone ]} XNone);
      [reflexivity | reflexivity | discriminate].
Defined.

Ltac entry_key := unfold entry_keys, required_keys; simpl; by repeat constructor.

Lemma make_visit_dict_ext py_repr (d d' : gmap string xval) :
  (∀ k, k ∈ entry_keys → d !! k = d' !! k) →
  make_visit_dict py_repr (XDict d) = make_visit_dict py_repr (XDict d').
Proof.
  intros H. unfold make_visit_dict.
  rewrite (resolve_plan_window_ext d d') by (apply H; entry_key).
  rewrite (resolve_repeat_ext py_repr d d') by (apply H; entry_key).
  rewrite !contains_dict, !getitem_dict.
  rewrite !(H "@observation") by entry_key.
  rewrite !(H "@visit") by entry_key.
  rewrite !(H "status") by entry_key.
  rewrite !(H "target") by entry_key.
  rewrite !(H "configuration") by entry_key.
  rewrite !(H "hours") by entry_key.
  rewrite !(H "startTime") by entry_key.
  rewrite !(H "endTime") by entry_key.
  done.
Qed.

(** X5: the row of an entry depends on the thirteen keys of [entry_keys]
    alone: setting or removing any other key of the entry changes nothing,
    neither the row nor the exception. *)
Theorem other_keys_ignored py_repr (d : gmap string xval) (k : string)
    (v : xval) :
  k ∉ entry_keys →
  make_visit_dict py_repr (XDict (<[k := v]> d))
  = make_visit_dict py_repr (XDict d)
  ∧ make_visit_dict py_repr (XDict (delete k d))
    = make_visit_dict py_repr (XDict d).
Proof.
  intros Hk. split; apply make_visit_dict_ext; intros k' Hk'.
  - apply lookup_insert_ne. congruence.
  - apply lookup_delete_ne. congruence.
Qed.

Lemma other_keys_ignored_witness :
  make_visit_dict flat_repr (XDict (<["notes" := XList []]> entry_full))
  = make_visit_dict flat_repr (XDict entry_full)
  ∧ make_visit_dict flat_repr (XDict (delete "notes" entry_full))
    = make_visit_dict flat_repr (XDict entry_full).
Proof.
  apply (other_keys_ignored flat_repr entry_full "notes" (XList [])).
  unfold entry_keys, required_keys. simpl.
  intros H. repeat (apply elem_of_cons in H as [H|H]; [discriminate H|]).
  by apply elem_of_nil in H.
Defined.

(** ** Malformed optional fields *)

Lemma plan_windows_Raise (l : list xval) (pws : string) (e : exn) :
  plan_windows l pws = Raise e → e = AttributeError.
Proof.
  revert pws. induction l as [|i rest IH]; intros pws; simpl; [done|].
  destruct i as [|w|l'|d']; simpl; try by intros [= <-].
  unfold index. rewrite split_paren_head. simpl. apply IH.
Qed.

Lemma resolve_plan_window_unreadable (d : gmap string xval) (pw : xval) :
  d !! "planWindow" = Some pw → ¬ readable_windows pw →
  resolve_plan_window (XDict d) = Raise AttributeError.
Proof.
  intros Hpw Hbad. unfold resolve_plan_window.
  rewrite contains_dict, getitem_dict. simpl.
  destruct (d !! "planWindow") as [pw'|] eqn:E; [|done].
  injection Hpw as ->. simpl.
  destruct pw as [|w|l|d']; simpl; try done.
  - destruct Hbad. left. by exists w.
  - destruct (plan_windows l "") as [s|e] eqn:El; simpl.
    + apply plan_windows_Ok in El as (ss & -> & _).
      destruct Hbad. right. by exists ss.
    + by apply plan_windows_Raise in El as ->.
Qed.

Lemma make_visit_dict_plan_window py_repr (d d' : gmap string xval)
    (r : visit_dict) (e : exn) :
  make_visit_dict py_repr (XDict d) = Ok r →
  (∀ k, k ∈ required_keys ++ ["startTime"; "endTime"] → d' !! k = d !! k) →
  resolve_plan_window (XDict d') = Raise e →
  make_visit_dict py_repr (XDict d') = Raise e.
Proof.
  intros (d0 & [= <-] & Ho & Hv & Hs & Ht & Hc & Hh & _)%make_visit_dict_Ok
    Hsame Hpw.
  unfold make_visit_dict. rewrite Hpw, !contains_dict, !getitem_dict.
  rewrite (Hsame "@observation"), (Hsame "@visit"), (Hsame "status"),
    (Hsame "target"), (Hsame "configuration"), (Hsame "hours")
    by (unfold required_keys; simpl; by repeat constructor).
  rewrite Ho, Hv, Hs, Ht, Hc, Hh. simpl.
  by destruct (d' !! "startTime"), (d' !! "endTime").
Qed.

(** X6: a [planWindow] that is neither a text nor a list of texts (an empty
    element, an element with attributes, a list with such an item) makes a
    good entry raise [AttributeError]: there is no fall back to the long range
    placeholder or to null. *)
Theorem unreadable_plan_window_raises py_repr (d : gmap string xval)
    (r : visit_dict) (pw : xval) :
  make_visit_dict py_repr (XDict d) = Ok r →
  ¬ readable_windows pw →
  make_visit_dict py_repr (XDict (<["planWindow" := pw]> d))
  = Raise AttributeError.
Proof.
  intros Hr Hbad. eapply make_visit_dict_plan_window; [exact Hr| |].
  - intros k Hk. apply lookup_insert_ne. intros <-.
    unfold required_keys in Hk. simpl in Hk.
    repeat (apply elem_of_cons in Hk as [Hk|Hk]; [discriminate Hk|]).
    by apply elem_of_nil in Hk.
  - eapply resolve_plan_window_unreadable; [|exact Hbad].
    apply lookup_insert_eq.
Qed.

Lemma unreadable_plan_window_raises_witness :
  make_visit_dict flat_repr
    (XDict (<["planWindow" := XList [XStr "Mar 1 (2023.060)"; XNone]]>
              entry_full))
  = Raise AttributeError.
Proof.
  apply (unreadable_plan_window_raises flat_repr entry_full row_full).
  - vm_compute. reflexivity.
  - intros [[s [=]]|[ss H]].
    destruct ss as [|s1 [|s2 ss]]; discriminate H.
Defined.

Lemma make_visit_dict_repeat py_repr (d d' : gmap string xval)
    (r : visit_dict) (e : exn) :
  make_visit_dict py_repr (XDict d) = Ok r →
  (∀ k, k ∈ required_keys ++ ["startTime"; "endTime"; "planWindow";
                              "longRangePlanStatus"] →
        d' !! k = d !! k) →
  resolve_repeat py_repr (XDict d') = Raise e →
  make_visit_dict py_repr (XDict d') = Raise e.
Proof.
  intros Hr Hsame Hrp.
  pose proof Hr as (d0 & [= <-] & Ho & Hv & Hs & Ht & Hc & Hh & _ & _ & Hpw & _)
    %make_visit_dict_Ok.
  apply resolve_plan_window_Ok in Hpw.
  unfold make_visit_dict.
  rewrite Hrp, (resolve_plan_window_ext d' d), Hpw
    by (apply Hsame; unfold required_keys; simpl; by repeat constructor).
  rewrite !contains_dict, !getitem_dict.
  rewrite (Hsame "@observation"), (Hsame "@visit"), (Hsame "status"),
    (Hsame "target"), (Hsame "configuration"), (Hsame "hours")
    by (unfold required_keys; simpl; by repeat constructor).
  rewrite Ho, Hv, Hs, Ht, Hc, Hh. simpl.
  by destruct (d' !! "startTime"), (d' !! "endTime").
Qed.

(** X7: a [repeatedBy] reference that is no dict makes a good entry raise
    [TypeError], and one that lacks [problemID], [observation] or [visit]
    makes it raise [KeyError], also when the entry has a usable [repeatOf] or
    [approvedRepeat]: a later branch is never tried instead. *)
Theorem broken_repeated_by_raises py_repr (d : gmap string xval)
    (r : visit_dict) :
  make_visit_dict py_repr (XDict d) = Ok r →
  (∀ rb, (∀ m, rb ≠ XDict m) →
         make_visit_dict py_repr (XDict (<["repeatedBy" := rb]> d))
         = Raise TypeError)
  ∧ (∀ m k, k ∈ ["problemID"; "observation"; "visit"] → m !! k = None →
            make_visit_dict py_repr (XDict (<["repeatedBy" := XDict m]> d))
            = Raise KeyError).
Proof.
  intros Hr.
  assert (∀ rb k, k ∈ required_keys ++ ["startTime"; "endTime"; "planWindow";
                                        "longRangePlanStatus"] →
                  <["repeatedBy" := rb]> d !! k = d !! k) as Hsame.
  { intros rb k Hk. apply lookup_insert_ne. intros <-.
    unfold required_keys in Hk. simpl in Hk.
    repeat (apply elem_of_cons in Hk as [Hk|Hk]; [discriminate Hk|]).
    by apply elem_of_nil in Hk. }
  split.
  - intros rb Hrb. eapply make_visit_dict_repeat; [exact Hr|apply Hsame|].
    unfold resolve_repeat. rewrite contains_dict, getitem_dict. simpl.
    destruct (<["repeatedBy" := rb]> d !! "repeatedBy") as [rb'|] eqn:E;
      rewrite lookup_insert_eq in E; [|done].
    injection E as <-. simpl.
    destruct rb as [| | |m]; try done. by destruct (Hrb m).
  - intros m k Hk Hnone.
    eapply make_visit_dict_repeat; [exact Hr|apply Hsame|].
    unfold resolve_repeat. rewrite contains_dict, getitem_dict. simpl.
    destruct (<["repeatedBy" := XDict m]> d !! "repeatedBy") as [rb'|] eqn:E;
      rewrite lookup_insert_eq in E; [|done].
    injection E as <-. simpl.
    destruct (m !! "problemID") eqn:E1; [|done]. simpl.
    destruct (m !! "observation") eqn:E2; [|done]. simpl.
    destruct (m !! "visit") eqn:E3; [|done]. exfalso.
    repeat (apply elem_of_cons in Hk as [->|Hk]; [congruence|]).
    by apply elem_of_nil in Hk.
Qed.

Lemma broken_repeated_by_raises_witness :
  make_visit_dict flat_repr (XDict (<["repeatedBy" := XStr "12345"]> entry_full))
  = Raise TypeError
  ∧ make_visit_dict flat_repr
      (XDict (<["repeatedBy" := XDict {[ "problemID" := XStr "12345" ]}]>
                entry_full))
    = Raise KeyError.
Proof.
  assert (make_visit_dict flat_repr (XDict entry_full) = Ok row_full) as H
    by (vm_compute; reflexivity).
  split.
  - apply (proj1 (broken_repeated_by_raises flat_repr entry_full row_full H)).
    discriminate.
  - apply (proj2 (broken_repeated_by_raises flat_repr entry_full row_full H)
             {[ "problemID" := XStr "12345" ]} "visit").
    + by repeat constructor.
    + reflexivity.
Defined.

(** ** What the two resolved cells tell *)

Lemma mem_append (c : ascii) (a b : string) :
  Str.mem c (a +:+ b) = Str.mem c a || Str.mem c b.
Proof.
  induction a as [|x a IH]; [done|].
  rewrite append_cons. simpl. rewrite IH. by destruct (Ascii.eqb x c).
Qed.

Lemma mem_before_paren (s : string) :
  Str.mem "("%char (before_paren s) = false.
Proof.
  induction s as [|a s IH]; simpl; [done|].
  destruct (Ascii.eqb a "("%char) eqn:E; simpl; [done|]. by rewrite E.
Qed.

Lemma mem_spaced (ss : list string) : Str.mem "("%char (spaced ss) = false.
Proof.
  induction ss as [|s ss IH]; simpl; [done|].
  by rewrite !mem_append, mem_before_paren, IH.
Qed.

(** X8: no [plan_window] text that [get_visit_status] produces holds an
    opening parenthesis. *)
Theorem plan_window_without_parenthesis py_repr (visit_data : xval)
    (rows : list visit_dict) :
  get_visit_status py_repr visit_data = Ok rows →
  Forall (λ r, ∀ s, plan_window r = XStr s → Str.mem "("%char s = false) rows.
Proof.
  intros (vds & _ & Hrows)%get_visit_status_Ok.
  induction Hrows as [|vd r vds rows Hr _ IH]; constructor; [|done].
  apply make_visit_dict_Ok in Hr
    as (d & -> & _ & _ & _ & _ & _ & _ & _ & _ & Hpw & _).
  intros s Hs. rewrite Hs in Hpw. inversion Hpw; subst.
  - apply mem_before_paren.
  - apply mem_spaced.
  - reflexivity.
Qed.

Lemma plan_window_without_parenthesis_witness :
  Forall (λ r, ∀ s, plan_window r = XStr s → Str.mem "("%char s = false)
         [row_full; row_base].
Proof.
  apply (plan_window_without_parenthesis flat_repr
           (report_of (XList [XDict entry_full; XDict entry_base]))).
  vm_compute. reflexivity.
Defined.

(** X9: a row has a null [plan_window] exactly when its entry has neither
    [planWindow] nor [longRangePlanStatus], and a null [repeat] exactly when
    it has none of [repeatedBy], [repeatOf] and [approvedRepeat]. *)
Theorem null_cells_mean_absent py_repr (d : gmap string xval)
    (r : visit_dict) :
  make_visit_dict py_repr (XDict d) = Ok r →
  (plan_window r = XNone
   ↔ d !! "planWindow" = None ∧ d !! "longRangePlanStatus" = None)
  ∧ (repeat r = XNone
     ↔ d !! "repeatedBy" = None ∧ d !! "repeatOf" = None
       ∧ d !! "approvedRepeat" = None).
Proof.
  intros (d' & [= <-] & _ & _ & _ & _ & _ & _ & _ & _ & Hpw & Hrp)
    %make_visit_dict_Ok.
  split; split.
  - intros E. rewrite E in Hpw. by inversion Hpw.
  - intros [H1 H2]. eapply plan_window_resolution_det; [exact Hpw|].
    by constructor.
  - intros E. rewrite E in Hrp. by inversion Hrp.
  - intros (H1 & H2 & H3). eapply repeat_resolution_det; [exact Hrp|].
    by constructor.
Qed.

Lemma null_cells_mean_absent_witness :
  (plan_window row_base = XNone
   ↔ entry_base !! "planWindow" = None
     ∧ entry_base !! "longRangePlanStatus" = None)
  ∧ (repeat row_base = XNone
     ↔ entry_base !! "repeatedBy" = None ∧ entry_base !! "repeatOf" = None
       ∧ entry_base !! "approvedRepeat" = None).
Proof.
  apply (null_cells_mean_absent flat_repr entry_base row_base).
  vm_compute. reflexivity.
Defined.

(** X10: a single window without parenthesis is kept letter for letter, and
    a window [w(annotation)] gives [w], with the blanks that [w] ends with. *)
Theorem single_window_text py_repr (d : gmap string xval) (r : visit_dict)
    (w : string) :
  make_visit_dict py_repr (XDict d) = Ok r →
  Str.mem "("%char w = false →
  (d !! "planWindow" = Some (XStr w) → plan_window r = XStr w)
  ∧ (∀ annotation,
       d !! "planWindow" = Some (XStr (w +:+ String "("%char annotation)) →
       plan_window r = XStr w).
Proof.
  intros (d' & [= <-] & _ & _ & _ & _ & _ & _ & _ & _ & Hpw & _)
    %make_visit_dict_Ok Hw.
  split.
  - intros H. eapply plan_window_resolution_det; [exact Hpw|].
    rewrite <-(before_paren_plain w Hw). by constructor.
  - intros annotation H.
    eapply plan_window_resolution_det; [exact Hpw|].
    rewrite <-(before_paren_annotated w annotation Hw). by constructor.
Qed.

Lemma single_window_text_witness :
  (entry_full !! "planWindow" = Some (XStr "Mar 1, 2023 - Mar 5, 2023 ") →
   plan_window row_full = XStr "Mar 1, 2023 - Mar 5, 2023 ")
  ∧ (∀ annotation,
       entry_full !! "planWindow"
       = Some (XStr ("Mar 1, 2023 - Mar 5, 2023 "
                     +:+ String "("%char annotation)) →
       plan_window row_full = XStr "Mar 1, 2023 - Mar 5, 2023 ").
Proof.
  apply (single_window_text flat_repr entry_full row_full
           "Mar 1, 2023 - Mar 5, 2023 ").
  - vm_compute. reflexivity.
  - reflexivity.
Defined.

(** X11: the way the [repeat] text starts tells which reference it was made
    from: [Rescheduled by] exactly for an entry with [repeatedBy], [Repeat of]
    exactly for one without it and with [repeatOf], [Repeat visit] exactly
    for one with [approvedRepeat] alone. *)
Theorem repeat_text_tells_reference py_repr (d : gmap string xval)
    (r : visit_dict) :
  make_visit_dict py_repr (XDict d) = Ok r →
  (starts_with "Rescheduled by WOPR " (repeat r) = true
   ↔ is_Some (d !! "repeatedBy"))
  ∧ (starts_with "Repeat of observation " (repeat r) = true
     ↔ d !! "repeatedBy" = None ∧ is_Some (d !! "repeatOf"))
  ∧ (starts_with "Repeat visit implementation pending by WOPR " (repeat r)
     = true
     ↔ d !! "repeatedBy" = None ∧ d !! "repeatOf" = None
       ∧ is_Some (d !! "approvedRepeat")).
Proof.
  intros (d' & [= <-] & _ & _ & _ & _ & _ & _ & _ & _ & _ & Hrp)
    %make_visit_dict_Ok.
  destruct Hrp as [rb pid obs vis Hrb _ _ _
                  |ro obs vis pid Hrb Hro _ _ _
                  |ar pid Hrb Hro Har _
                  |Hrb Hro Har];
    rewrite ?Hrb, ?Hro, ?Har;
    (split; [|split]); split;
    try (intros _; by eauto);
    try (intros H; by cbv in H);
    try (intros H; by destruct H as [? ?]);
    try (intros H; destruct H as (? & ? & [? ?]); done);
    try (intros H; destruct H as (? & [? ?]); done);
    try (intros [? ?]; done).
Qed.

Lemma repeat_text_tells_reference_witness :
  (starts_with "Rescheduled by WOPR " (repeat row_full) = true
   ↔ is_Some (entry_full !! "repeatedBy"))
  ∧ (starts_with "Repeat of observation " (repeat row_full) = true
     ↔ entry_full !! "repeatedBy" = None ∧ is_Some (entry_full !! "repeatOf"))
  ∧ (starts_with "Repeat visit implementation pending by WOPR "
       (repeat row_full) = true
     ↔ entry_full !! "repeatedBy" = None ∧ entry_full !! "repeatOf" = None
       ∧ is_Some (entry_full !! "approvedRepeat")).
Proof.
  apply (repeat_text_tells_reference flat_repr entry_full row_full).
  vm_compute. reflexivity.
Defined.

(** ** Priority *)

Lemma make_visit_dict_resolved py_repr (d d' : gmap string xval) :
  (∀ k, k ∈ required_keys ++ ["startTime"; "endTime"] → d' !! k = d !! k) →
  resolve_plan_window (XDict d') = resolve_plan_window (XDict d) →
  resolve_repeat py_repr (XDict d') = resolve_repeat py_repr (XDict d) →
  make_visit_dict py_repr (XDict d') = make_visit_dict py_repr (XDict d).
Proof.
  intros H Hpw Hrp. unfold make_visit_dict.
  rewrite Hpw, Hrp, !contains_dict, !getitem_dict.
  rewrite !(H "@observation") by entry_key.
  rewrite !(H "@visit") by entry_key.
  rewrite !(H "status") by entry_key.
  rewrite !(H "target") by entry_key.
  rewrite !(H "configuration") by entry_key.
  rewrite !(H "hours") by entry_key.
  rewrite !(H "startTime") by entry_key.
  rewrite !(H "endTime") by entry_key.
  done.
Qed.

Lemma resolve_plan_window_present (d d' : gmap string xval) :
  is_Some (d !! "planWindow") → d' !! "planWindow" = d !! "planWindow" →
  resolve_plan_window (XDict d') = resolve_plan_window (XDict d).
Proof.
  intros [pw Hpw] H. unfold resolve_plan_window.
  rewrite !contains_dict, !getitem_dict. simpl. rewrite H.
  by destruct (d !! "planWindow").
Qed.

Lemma resolve_repeat_repeated_by py_repr (d d' : gmap string xval) :
  is_Some (d !! "repeatedBy") → d' !! "repeatedBy" = d !! "repeatedBy" →
  resolve_repeat py_repr (XDict d') = resolve_repeat py_repr (XDict d).
Proof.
  intros [rb Hrb] H. unfold resolve_repeat.
  rewrite !contains_dict, !getitem_dict. simpl. rewrite H.
  by destruct (d !! "repeatedBy").
Qed.

Lemma resolve_repeat_repeat_of py_repr (d d' : gmap string xval) :
  is_Some (d !! "repeatOf") → d' !! "repeatedBy" = d !! "repeatedBy" →
  d' !! "repeatOf" = d !! "repeatOf" →
  resolve_repeat py_repr (XDict d') = resolve_repeat py_repr (XDict d).
Proof.
  intros [ro Hro] H1 H2. unfold resolve_repeat.
  rewrite !contains_dict, !getitem_dict. simpl. rewrite H1, H2.
  destruct (d !! "repeatedBy"); [done|]. by destruct (d !! "repeatOf").
Qed.

Ltac other_key Hk :=
  apply lookup_insert_ne; intros <-;
  unfold required_keys in Hk; simpl in Hk;
  repeat (apply elem_of_cons in Hk as [Hk|Hk]; [discriminate Hk|]);
  by apply elem_of_nil in Hk.

(** X12: a field of lower priority is not even looked at: with a
    [planWindow], the value of [longRangePlanStatus] changes nothing; with a
    [repeatedBy], neither [repeatOf] nor [approvedRepeat] does; with a
    [repeatOf], [approvedRepeat] does not.  A malformed lower field is
    harmless there. *)
Theorem lower_priority_unread py_repr (d : gmap string xval) (v : xval) :
  (is_Some (d !! "planWindow") →
     make_visit_dict py_repr (XDict (<["longRangePlanStatus" := v]> d))
     = make_visit_dict py_repr (XDict d))
  ∧ (is_Some (d !! "repeatedBy") →
     make_visit_dict py_repr (XDict (<["repeatOf" := v]> d))
     = make_visit_dict py_repr (XDict d)
     ∧ make_visit_dict py_repr (XDict (<["approvedRepeat" := v]> d))
       = make_visit_dict py_repr (XDict d))
  ∧ (is_Some (d !! "repeatOf") →
     make_visit_dict py_repr (XDict (<["approvedRepeat" := v]> d))
     = make_visit_dict py_repr (XDict d)).
Proof.
  split; [|split].
  - intros H. apply make_visit_dict_resolved.
    + intros k Hk. other_key Hk.
    + apply resolve_plan_window_present; [done|]. by apply lookup_insert_ne.
    + apply resolve_repeat_ext; by apply lookup_insert_ne.
  - intros H. split; apply make_visit_dict_resolved;
      try (intros k Hk; other_key Hk);
      try (apply resolve_plan_window_ext; by apply lookup_insert_ne);
      (apply resolve_repeat_repeated_by; [done|]; by apply lookup_insert_ne).
  - intros H. apply make_visit_dict_resolved.
    + intros k Hk. other_key Hk.
    + apply resolve_plan_window_ext; by apply lookup_insert_ne.
    + apply resolve_repeat_repeat_of; [done| |]; by apply lookup_insert_ne.
Qed.

Lemma lower_priority_unread_witness :
  make_visit_dict flat_repr (XDict (<["longRangePlanStatus" := XNone]> entry_full))
  = make_visit_dict flat_repr (XDict entry_full)
  ∧ make_visit_dict flat_repr (XDict (<["repeatOf" := XNone]> entry_full))
    = make_visit_dict flat_repr (XDict entry_full)
  ∧ make_visit_dict flat_repr (XDict (<["approvedRepeat" := XNone]> entry_full))
    = make_visit_dict flat_repr (XDict entry_full).
Proof.
  split; [|split].
  - apply (proj1 (lower_priority_unread flat_repr entry_full XNone)).
    eexists; vm_compute; reflexivity.
  - apply (proj1 (proj2 (lower_priority_unread flat_repr entry_full XNone))).
    eexists; vm_compute; reflexivity.
  - apply (proj2 (proj2 (lower_priority_unread flat_repr entry_full XNone))).
    eexists; vm_compute; reflexivity.
Defined.

(** ** Filtering twice, and in pieces *)

Lemma filter_idem {A} (f : A → bool) (l : list A) :
  List.filter f (List.filter f l) = List.filter f l.
Proof.
  rewrite filter_filter. apply filter_ext. intros x. by destruct (f x).
Qed.

Lemma filter_comm {A} (f g : A → bool) (l : list A) :
  List.filter f (List.filter g l) = List.filter g (List.filter f l).
Proof.
  rewrite !filter_filter. apply filter_ext. intros x.
  by destruct (f x), (g x).
Qed.

Lemma filter_disjoint {A} (f g : A → bool) (l : list A) :
  (∀ x, f x = true → g x = true → False) →
  List.filter f (List.filter g l) = [].
Proof.
  intros H. rewrite filter_filter.
  induction l as [|x l IH]; simpl; [done|].
  destruct (g x) eqn:Eg, (f x) eqn:Ef; simpl; try done.
  by destruct (H x).
Qed.

(** X13: filtering composes.  Filtering the frame of line 147, already
    without null statuses, gives what filtering the raw frame gives;
    filtering a result again with the same selector or with [All] gives it
    back; and two different status values select nothing in a row. *)
Theorem filter_composes (selector : string) (df : list visit_dict) :
  filter_df_by_status selector (status_df df)
  = filter_df_by_status selector df
  ∧ filter_df_by_status selector (fst (filter_df_by_status selector df))
    = filter_df_by_status selector df
  ∧ filter_df_by_status "All" (fst (filter_df_by_status selector df))
    = filter_df_by_status selector df
  ∧ (∀ other, selector ≠ "All" → other ≠ "All" → selector ≠ other →
       filter_df_by_status other (fst (filter_df_by_status selector df))
       = ([], 3%Z)).
Proof.
  unfold filter_df_by_status, status_df. simpl.
  split; [|split; [|split]].
  - by rewrite filter_idem.
  - destruct (bool_decide (selector = "All")).
    + by rewrite filter_idem.
    + rewrite (filter_comm _ (λ r, eq_str selector (status r))).
      by rewrite !filter_idem.
  - destruct (bool_decide (selector = "All")).
    + by rewrite filter_idem.
    + rewrite (filter_comm _ (λ r, eq_str selector (status r))).
      by rewrite !filter_idem.
  - intros other Hs Ho Hne.
    rewrite (bool_decide_eq_false_2 (selector = "All")) by done.
    rewrite (bool_decide_eq_false_2 (other = "All")) by done.
    rewrite (filter_comm _ (λ r, eq_str selector (status r))).
    rewrite filter_idem.
    rewrite (filter_comm (λ r, eq_str other (status r))).
    rewrite filter_disjoint; [done|].
    intros r H1%eq_str_true H2%eq_str_true. congruence.
Qed.

Lemma filter_composes_witness :
  filter_df_by_status "Executed"
    (fst (filter_df_by_status "Scheduled" sample_table)) = ([], 3%Z).
Proof.
  apply (proj2 (proj2 (proj2 (filter_composes "Scheduled" sample_table))));
    discriminate.
Defined.

(** X14: the filter works row by row: the rows selected from two frames put
    end to end are the rows selected from each, end to end, and the heights
    add up once the 3 of one of them is taken off. *)
Theorem filter_of_append (selector : string) (df1 df2 : list visit_dict) :
  fst (filter_df_by_status selector (df1 ++ df2))
  = fst (filter_df_by_status selector df1)
    ++ fst (filter_df_by_status selector df2)
  ∧ snd (filter_df_by_status selector (df1 ++ df2))
    = (snd (filter_df_by_status selector df1)
       + snd (filter_df_by_status selector df2) - 3)%Z.
Proof.
  unfold filter_df_by_status. simpl.
  destruct (bool_decide (selector = "All"));
    rewrite !List.filter_app, ?length_app; split; try done; lia.
Qed.

(** X15: the height is at least 3; a status value never gives a taller table
    than [All]; and [All] gives [35 * len(df) + 3] exactly when no row has a
    null status. *)
Theorem height_bounds (selector : string) (df : list visit_dict) :
  (3 ≤ snd (filter_df_by_status selector df))%Z
  ∧ (snd (filter_df_by_status selector df)
     ≤ snd (filter_df_by_status "All" df))%Z
  ∧ (snd (filter_df_by_status "All" df) ≤ 35 * Z.of_nat (length df) + 3)%Z
  ∧ (snd (filter_df_by_status "All" df) = (35 * Z.of_nat (length df) + 3)%Z
     ↔ Forall (λ r, status r ≠ XNone) df).
Proof.
  unfold filter_df_by_status. simpl.
  pose proof (List.filter_length_le (λ r, notnull (status r)) df) as H1.
  pose proof (List.filter_length_le (λ r, eq_str selector (status r))
                (List.filter (λ r, notnull (status r)) df)) as H2.
  split; [lia|]. split; [destruct (bool_decide (selector = "All")); lia|].
  split; [lia|]. split.
  - intros H.
    assert (length (List.filter (λ r, notnull (status r)) df) = length df)
      as Hlen by lia.
    clear H H1 H2. induction df as [|r df IH]; [constructor|].
    simpl in Hlen.
    pose proof (List.filter_length_le (λ r, notnull (status r)) df) as Hle.
    destruct (notnull (status r)) eqn:E; simpl in Hlen; [|lia].
    constructor; [by apply notnull_true|]. apply IH. lia.
  - intros H.
    assert (List.filter (λ r, notnull (status r)) df = df) as ->; [|lia].
    clear H1 H2. induction H as [|r df Hr _ IH]; [done|].
    apply notnull_true in Hr.
    change (List.filter (λ r, notnull (status r)) (r :: df))
      with (if notnull (status r)
            then r :: List.filter (λ r, notnull (status r)) df
            else List.filter (λ r, notnull (status r)) df).
    by rewrite Hr, IH.
Qed.

(** ** The select box *)







(** ** The link formatter *)

(** X17: [make_md_link] succeeds exactly on a tag with an [href] and at least
    one child, and gives [[text](https://www.stsci.edu/href)] for the first
    child.  A tag without [href] raises [KeyError], also when it is empty; a
    tag with [href] and no child raises [IndexError]; a text raises
    [TypeError]. *)
Theorem make_md_link_result (py_str : node → string) (link : node) :
  (∀ md, make_md_link py_str link = Ok md ↔
         ∃ name attrs first rest href,
           link = Tag name attrs (first :: rest)
           ∧ assoc "href" attrs = Some href
           ∧ md = "[" +:+ node_format py_str first
                  +:+ "](https://www.stsci.edu/" +:+ href +:+ ")")
  ∧ (∀ name attrs cs, link = Tag name attrs cs →
       assoc "href" attrs = None →
       make_md_link py_str link = Raise KeyError)
  ∧ (∀ name attrs href, link = Tag name attrs [] →
       assoc "href" attrs = Some href →
       make_md_link py_str link = Raise IndexError)
  ∧ (∀ s, link = Text s → make_md_link py_str link = Raise TypeError).
Proof.
  unfold make_md_link, node_getitem. split; [|split; [|split]].
  - intros md. split.
    + destruct link as [s|name attrs cs]; simpl; [done|].
      destruct (assoc "href" attrs) as [href|] eqn:E; simpl; [|done].
      destruct cs as [|first rest]; simpl; [done|].
      intros [= <-]. by exists name, attrs, first, rest, href.
    + intros (name & attrs & first & rest & href & -> & E & ->).
      simpl. by rewrite E.
  - intros name attrs cs -> E. by rewrite E.
  - intros name attrs href -> E. by rewrite E.
  - by intros s ->.
Qed.

Lemma make_md_link_result_witness :
  make_md_link no_markup (Tag "a" [] [Text "APT"]) = Raise KeyError
  ∧ make_md_link no_markup empty_link = Raise IndexError
  ∧ make_md_link no_markup (Text "APT") = Raise TypeError
  ∧ make_md_link no_markup (link "apt/1234.aptx" "APT")
    = Ok "[APT](https://www.stsci.edu/apt/1234.aptx)".
Proof.
  split; [|split; [|split]].
  - by apply (proj1 (proj2 (make_md_link_result no_markup
                              (Tag "a" [] [Text "APT"]))) "a" [] [Text "APT"]).
  - by apply (proj1 (proj2 (proj2 (make_md_link_result no_markup empty_link)))
                "a" [("href", "apt/1234.aptx")] "apt/1234.aptx").
  - by apply (proj2 (proj2 (proj2 (make_md_link_result no_markup
                                     (Text "APT")))) "APT").
  - apply (proj1 (make_md_link_result no_markup
                    (link "apt/1234.aptx" "APT"))).
    by exists "a", [("href", "apt/1234.aptx")], (Text "APT"), [],
              "apt/1234.aptx".
Defined.

(** ** The page behind a program *)

Lemma index_Ok {A} (l : list A) (i : nat) (x : A) :
  index l i = Ok x ↔ l !! i = Some x.
Proof.
  unfold index. destruct (l !! i); split; congruence.
Qed.

Lemma get_prop_info_steps {float} (py_int : string → option Z)
    (py_float : string → option float) (html_data : node)
    (m : gmap string (pval float)) :
  find_all "p" html_data ≠ [] →
  get_prop_info float py_int py_float html_data = Ok m →
  ∃ n1 pi n5 pi_inst m1 title m5 cycle n9 allocation excl_time
    h hc hn nc ptype apt pdf,
    content (find_all "p" html_data) 0 1 = Ok n1
    ∧ strip_call float n1 = Ok pi
    ∧ content (find_all "p" html_data) 0 5 = Ok n5
    ∧ strip_call float n5 = Ok pi_inst
    ∧ content (find_all "p" html_data) 1 1 = Ok m1
    ∧ strip_call float m1 = Ok title
    ∧ content (find_all "p" html_data) 1 5 = Ok m5
    ∧ content (find_all "p" html_data) 1 9 = Ok n9
    ∧ find_all "h1" html_data !! 0 = Some h
    ∧ contents_of h = Ok hc
    ∧ hc !! 1 = Some hn
    ∧ contents_of hn = Ok nc
    ∧ nc !! 0 = Some ptype
    ∧ find_all "a" html_data !! 9 = Some apt
    ∧ find_all "a" html_data !! 10 = Some pdf
    ∧ m = program_info pi pi_inst title cycle allocation excl_time
            ptype apt pdf.
Proof.
  intros Hps H. unfold get_prop_info in H.
  destruct (find_all "p" html_data) as [|p0 ps] eqn:Eps; [done|].
  cbv zeta in H.
  apply bind_Ok in H as (n1 & Hn1 & H). apply bind_Ok in H as (pi & Hpi & H).
  apply bind_Ok in H as (n5 & Hn5 & H).
  apply bind_Ok in H as (pi_inst & Hinst & H).
  apply bind_Ok in H as (m1 & Hm1 & H).
  apply bind_Ok in H as (title & Htitle & H).
  apply bind_Ok in H as (m5 & Hm5 & H). apply bind_Ok in H as (v & _ & H).
  apply bind_Ok in H as (cycle & Hcycle & H).
  apply bind_Ok in H as (n9 & Hn9 & H). apply bind_Ok in H as (tok & _ & H).
  apply bind_Ok in H as (allocation & Hallocation & H).
  apply bind_Ok in H as (excl & Hexcl & H).
  apply bind_Ok in H as (h & Hh%index_Ok & H).
  apply bind_Ok in H as (hc & Hhc & H).
  apply bind_Ok in H as (hn & Hhn%index_Ok & H).
  apply bind_Ok in H as (nc & Hnc & H).
  apply bind_Ok in H as (ptype & Hptype%index_Ok & H).
  apply bind_Ok in H as (apt & Hapt%index_Ok & H).
  apply bind_Ok in H as (pdf & Hpdf%index_Ok & H).
  injection H as <-.
  apply int_call_Ok in Hcycle as (s & z & _ & _ & ->).
  apply float_call_Ok in Hallocation as (f & _ & ->).
  assert (∃ z, excl = PInt z) as [excl_time ->].
  { apply except_IndexError_Ok in Hexcl as [Hbody|[_ [= <-]]]; [|by eexists].
    apply bind_Ok in Hbody as (n & _ & Hbody).
    apply bind_Ok in Hbody as (tok' & _ & Hbody).
    apply int_call_Ok in Hbody as (? & z' & _ & _ & ->). by eexists. }
  by eexists n1, pi, n5, pi_inst, m1, title, m5, z, n9, f,
     excl_time, h, hc, hn, nc, ptype, apt, pdf.
Qed.

Lemma find_all_lookup (name : string) (html_data : node) (i : nat) (n : node) :
  find_all name html_data !! i = Some n →
  ∃ attrs cs, n = Tag name attrs cs.
Proof.
  intros H%list_elem_of_lookup_2%list_elem_of_In.
  apply filter_In in H as [_ H].
  destruct n as [s|nm attrs cs]; simpl in H; [done|].
  apply bool_decide_eq_true in H as ->. by exists attrs, cs.
Qed.

(** X18: in a non-empty result, [apt] and [pdf] are the tenth and the
    eleventh [a] element of the page, in document order; being tags, they
    never make [make_md_link] raise [TypeError]: it gives the link text, or
    raises [KeyError] without [href], or [IndexError] without a child. *)
Theorem program_links {float} (py_int : string → option Z)
    (py_float : string → option float) (html_data : node)
    (m : gmap string (pval float)) :
  get_prop_info float py_int py_float html_data = Ok m → m ≠ ∅ →
  ∃ apt pdf,
    m !! "apt" = Some (PNode apt) ∧ m !! "pdf" = Some (PNode pdf)
    ∧ find_all "a" html_data !! 9 = Some apt
    ∧ find_all "a" html_data !! 10 = Some pdf
    ∧ (∃ attrs cs, apt = Tag "a" attrs cs)
    ∧ (∃ attrs cs, pdf = Tag "a" attrs cs)
    ∧ ∀ py_str l, l = apt ∨ l = pdf →
        (∃ md, make_md_link py_str l = Ok md)
        ∨ make_md_link py_str l = Raise KeyError
        ∨ make_md_link py_str l = Raise IndexError.
Proof.
  intros H Hm.
  assert (find_all "p" html_data ≠ []) as Hps.
  { intros Hps. rewrite (get_prop_info_no_paragraph _ _ _ Hps) in H.
    congruence. }
  apply get_prop_info_steps in H
    as (n1 & pi & n5 & pi_inst & m1 & title & m5 & cycle & n9 & allocation
        & excl_time & h & hc & hn & nc & ptype & apt & pdf & _ & _ & _ & _ & _
        & _ & _ & _ & _ & _ & _ & _ & _ & Hapt & Hpdf & ->); [|done].
  exists apt, pdf. unfold program_info.
  rewrite lookup_insert_ne, !lookup_insert_eq by done.
  pose proof (find_all_lookup _ _ _ _ Hapt) as Ha.
  pose proof (find_all_lookup _ _ _ _ Hpdf) as Hp.
  repeat split; try done.
  intros py_str l Hl.
  assert (∃ attrs cs, l = Tag "a" attrs cs) as (attrs & cs & ->)
    by by destruct Hl as [->| ->].
  unfold make_md_link, node_getitem. simpl.
  destruct (assoc "href" attrs); simpl; [|by right; left].
  destruct cs; simpl; [by right; right|]. left. by eexists.
Qed.

Lemma program_links_witness :
  ∃ apt pdf,
    sample_info 12 !! "apt" = Some (PNode apt)
    ∧ sample_info 12 !! "pdf" = Some (PNode pdf)
    ∧ find_all "a" page_exclusive !! 9 = Some apt
    ∧ find_all "a" page_exclusive !! 10 = Some pdf
    ∧ (∃ attrs cs, apt = Tag "a" attrs cs)
    ∧ (∃ attrs cs, pdf = Tag "a" attrs cs)
    ∧ ∀ py_str l, l = apt ∨ l = pdf →
        (∃ md, make_md_link py_str l = Ok md)
        ∨ make_md_link py_str l = Raise KeyError
        ∨ make_md_link py_str l = Raise IndexError.
Proof.
  apply (program_links dec_int dec_float page_exclusive (sample_info 12)).
  - vm_compute. reflexivity.
  - apply program_info_non_empty.
Defined.

(** X19: a non-empty result needs a page with at least two paragraphs, the
    first of at least six children and the second of at least ten, at least
    one [h1] and at least eleven links; its [ptype] is the first child of the
    second child of the first [h1]. *)
Theorem page_shape_needed {float} (py_int : string → option Z)
    (py_float : string → option float) (html_data : node)
    (m : gmap string (pval float)) :
  get_prop_info float py_int py_float html_data = Ok m → m ≠ ∅ →
  (∃ n0 a0 c0 n1 a1 c1 rest,
      find_all "p" html_data = Tag n0 a0 c0 :: Tag n1 a1 c1 :: rest
      ∧ 6 ≤ length c0 ∧ 10 ≤ length c1)
  ∧ 11 ≤ length (find_all "a" html_data)
  ∧ (∃ ha hc hrest tn ta tc ptype,
        find_all "h1" html_data = Tag "h1" ha hc :: hrest
        ∧ hc !! 1 = Some (Tag tn ta tc)
        ∧ tc !! 0 = Some ptype
        ∧ m !! "ptype" = Some (PNode ptype)).
Proof.
  intros H Hm.
  assert (find_all "p" html_data ≠ []) as Hps.
  { intros Hps. rewrite (get_prop_info_no_paragraph _ _ _ Hps) in H.
    congruence. }
  apply get_prop_info_steps in H
    as (n1 & pi & n5 & pi_inst & m1 & title & m5 & cycle & n9 & allocation
        & excl_time & h & hc & hn & nc & ptype & apt & pdf & _ & _ & Hn5 & _
        & _ & _ & _ & Hn9 & Hh & Hhc & Hhn & Hnc & Hptype & _ & Hpdf & ->);
    [|done].
  apply content_Ok in Hn5 as (nm0 & at0 & c0 & Hp0 & Hc0).
  apply content_Ok in Hn9 as (nm1 & at1 & c1 & Hp1 & Hc1).
  apply lookup_lt_Some in Hc0, Hc1, Hpdf.
  split; [|split; [lia|]].
  - destruct (find_all "p" html_data) as [|p0 [|p1 rest]]; try done.
    injection Hp0 as ->. injection Hp1 as ->.
    exists nm0, at0, c0, nm1, at1, c1, rest.
    split; [done|]. split; lia.
  - destruct (find_all_lookup _ _ _ _ Hh) as (ha & hc' & ->).
    injection Hhc as <-.
    destruct hn as [s|tn ta tc]; [done|]. injection Hnc as <-.
    destruct (find_all "h1" html_data) as [|h0 hrest]; [done|].
    injection Hh as ->.
    exists ha, hc', hrest, tn, ta, tc, ptype. by repeat split.
Qed.

Lemma page_shape_needed_witness :
  (∃ n0 a0 c0 n1 a1 c1 rest,
      find_all "p" page_public = Tag n0 a0 c0 :: Tag n1 a1 c1 :: rest
      ∧ 6 ≤ length c0 ∧ 10 ≤ length c1)
  ∧ 11 ≤ length (find_all "a" page_public)
  ∧ (∃ ha hc hrest tn ta tc ptype,
        find_all "h1" page_public = Tag "h1" ha hc :: hrest
        ∧ hc !! 1 = Some (Tag tn ta tc)
        ∧ tc !! 0 = Some ptype
        ∧ sample_info 0 !! "ptype" = Some (PNode ptype)).
Proof.
  apply (page_shape_needed dec_int dec_float page_public (sample_info 0)).
  - vm_compute. reflexivity.
  - apply program_info_non_empty.
Defined.

(** ** Numbers that do not parse *)



(** ** What the extractor reads *)

(** X21: [get_prop_info] reads five places of the page and nothing else: two
    pages with the same first and second paragraph, the same first [h1] and the
    same tenth and eleventh link have the same outcome. *)
Theorem extractor_reads_five_places {float} (py_int : string → option Z)
    (py_float : string → option float) (html_data html_data' : node) :
  find_all "p" html_data !! 0 = find_all "p" html_data' !! 0 →
  find_all "p" html_data !! 1 = find_all "p" html_data' !! 1 →
  find_all "h1" html_data !! 0 = find_all "h1" html_data' !! 0 →
  find_all "a" html_data !! 9 = find_all "a" html_data' !! 9 →
  find_all "a" html_data !! 10 = find_all "a" html_data' !! 10 →
  get_prop_info float py_int py_float html_data
  = get_prop_info float py_int py_float html_data'.
Proof.
  intros H0 H1 Hh H9 H10.
  unfold get_prop_info, content, content_last, index.
  rewrite Hh, H9, H10.
  destruct (find_all "p" html_data) as [|p0 ps],
           (find_all "p" html_data') as [|p0' ps']; try done.
  injection H0 as <-. simpl in H1. simpl. by rewrite H1.
Qed.

Lemma extractor_reads_five_places_witness :
  get_prop_info (Z * nat) dec_int dec_float
    (Tag "[document]" [] [page_public; Tag "p" [] [Text "footer"];
                          Tag "h1" [] []; link "more.html" "more"])
  = get_prop_info (Z * nat) dec_int dec_float page_public.
Proof.
  apply (extractor_reads_five_places dec_int dec_float); reflexivity.
Defined.

(** ** Stripped texts *)







(** ** The form *)

(** X23: a submission whose page has no paragraph leaves the session
    identifier as it was and writes [Program not found.] only if no program
    was loaded before; a submission whose page gives a program stores the
    text entered, and then writes the message only for the empty text. *)
Theorem form_submission {float} (py_int : string → option Z)
    (py_float : string → option float) (session_pid session_pid' : option string)
    (pid : string) (html_data : node) (written : bool) :
  on_submit float py_int py_float session_pid pid html_data
  = Ok (session_pid', written) →
  (find_all "p" html_data = [] →
     session_pid' = session_pid ∧ written = negb (truthy session_pid))
  ∧ (find_all "p" html_data ≠ [] →
     session_pid' = Some pid ∧ (written = true ↔ pid = "")).
Proof.
  unfold on_submit. intros H. apply bind_Ok in H as (m & Hm & H).
  cbv zeta in H. split.
  - intros Hps. rewrite (get_prop_info_no_paragraph _ _ _ Hps) in Hm.
    injection Hm as <-. rewrite map_size_empty in H.
    rewrite bool_decide_eq_true_2 in H by done. by injection H as <- <-.
  - intros Hps.
    apply get_prop_info_Ok in Hm as (? & ? & ? & ? & ? & ? & ? & ? & ? & ?
                                     & -> & _); [|done].
    rewrite bool_decide_eq_false_2 in H.
    + injection H as <- <-. split; [done|]. by destruct pid.
    + intros E%map_size_empty_iff. by apply program_info_non_empty in E.
Qed.

Lemma form_submission_witness :
  (find_all "p" page_not_found = [] →
     Some "1234" = Some "1234" ∧ false = negb (truthy (Some "1234")))
  ∧ (find_all "p" page_not_found ≠ [] →
     Some "1234" = Some "9999" ∧ (false = true ↔ "9999" = "")).
Proof.
  apply (form_submission dec_int dec_float (Some "1234") (Some "1234")
           "9999" page_not_found false).
  reflexivity.
Defined.
